(** * Unified authentication and session layer: model and verified properties

    The development embeds the authentication core of the application
    (local username/password login, federated OIDC login, the unified
    passport session codec, the token-refresh gate and the user-facing
    auth routes) and proves the properties its design document states.

    Layout: shared helpers, then one module per source file
    ([Schema] for shared/schema.ts, [Storage] for server/storage.ts,
    [AuthSession] for server/authSession.ts, [ReplitAuth] for
    server/replitAuth.ts, [LocalAuth] for server/localAuth.ts and [Routes]
    for server/routes.ts), then the theorems. *)

From Stdlib Require Import ZArith Lia.
From stdpp Require Import base decidable option list strings.

Local Open Scope string_scope.
Local Open Scope list_scope.
Local Open Scope Z_scope.

(** ** JavaScript values and truthiness *)

(** A loosely typed field as the code reads it from a claim set, a request
    body or a query string: missing, [null], or a string. *)
Inductive jsval : Type :=
  | JsUndefined
  | JsNull
  | JsString (s : string).

(** [!!v] for a string: the empty string is falsy. *)
Definition truthy_string (s : string) : bool := negb (bool_decide (s = "")).

(** [!!v] for a loosely typed field. *)
Definition truthy (v : jsval) : bool :=
  match v with
  | JsString s => truthy_string s
  | _ => false
  end.

(** [!!v] for an optional string property ([undefined] when absent). *)
Definition truthy_opt (o : option string) : bool :=
  match o with
  | Some s => truthy_string s
  | None => false
  end.

(** [!!v] for an optional number: [undefined] and [0] are falsy. *)
Definition truthy_num (o : option Z) : bool :=
  match o with
  | Some n => negb (Z.eqb n 0)
  | None => false
  end.

(** [a || b] on loosely typed fields. *)
Definition js_or (a b : jsval) : jsval := if truthy a then a else b.

(** Outcome of an operation that may throw. *)
Inductive result (E A : Type) : Type :=
  | Ok (a : A)
  | Err (e : E).
Arguments Ok {E A} a.
Arguments Err {E A} e.

(** ** JSON response bodies *)

(** What [res.json] sends.  [JDate] stands for a [Date], which is rendered as
    its ISO-8601 string; absent ([undefined]) properties are simply not listed
    in a [JObj]. *)
#[warnings="-register-all"]
Inductive json : Type :=
  | JNull
  | JBool (b : bool)
  | JNum (n : Z)
  | JStr (s : string)
  | JDate (ms : Z)
  | JArr (items : list json)
  | JObj (fields : list (string * json)).

(** Does some object anywhere inside [j] carry a property named [k]? *)
Fixpoint has_key (k : string) (j : json) : bool :=
  match j with
  | JArr items => existsb (has_key k) items
  | JObj fields =>
      existsb (fun kv => bool_decide (fst kv = k) || has_key k (snd kv)) fields
  | _ => false
  end.

(** Property access [j.k] on an object (first listed occurrence). *)
Definition get_key (k : string) (j : json) : option json :=
  match j with
  | JObj fields => snd <$> List.find (fun kv => bool_decide (fst kv = k)) fields
  | _ => None
  end.

Definition json_opt_string (o : option string) : json :=
  match o with Some s => JStr s | None => JNull end.

Definition json_opt_bool (o : option bool) : json :=
  match o with Some b => JBool b | None => JNull end.

Definition json_opt_date (o : option Z) : json :=
  match o with Some t => JDate t | None => JNull end.

(** An HTTP response: status code and JSON body. *)
Record Response : Type := mkResponse { status : Z; body : json }.

Definition message_body (msg : string) : json := JObj [("message", JStr msg)].

(** ** shared/schema.ts *)

Module Schema.

(** [userRoleEnum]. *)
Inductive Role : Type := admin | pentester | client.

#[global] Instance Role_eq_dec : EqDecision Role.
Proof. solve_decision. Defined.

Definition role_name (r : Role) : string :=
  match r with
  | admin => "admin"
  | pentester => "pentester"
  | client => "client"
  end.

(** [['admin', 'pentester', 'client'].includes(s)], returning the role. *)
Definition parse_role (s : string) : option Role :=
  if bool_decide (s = "admin") then Some admin
  else if bool_decide (s = "pentester") then Some pentester
  else if bool_decide (s = "client") then Some client
  else None.

End Schema.
Export Schema.

(** A row of the [users] table ([typeof users.$inferSelect]); a [NULL] column
    is [None].  Timestamps are milliseconds since the epoch. *)
Module User.
Record t : Type := mk {
  id : string;
  email : option string;
  username : option string;
  password : option string;
  firstName : option string;
  lastName : option string;
  profileImageUrl : option string;
  role : Role;
  organization : option string;
  isActive : option bool;
  createdAt : option Z;
  updatedAt : option Z
}.

(** The properties of the row object: every column, in table order. *)
Definition fields (u : t) : list (string * json) :=
  [ ("id", JStr (id u));
    ("email", json_opt_string (email u));
    ("username", json_opt_string (username u));
    ("password", json_opt_string (password u));
    ("firstName", json_opt_string (firstName u));
    ("lastName", json_opt_string (lastName u));
    ("profileImageUrl", json_opt_string (profileImageUrl u));
    ("role", JStr (role_name (role u)));
    ("organization", json_opt_string (organization u));
    ("isActive", json_opt_bool (isActive u));
    ("createdAt", json_opt_date (createdAt u));
    ("updatedAt", json_opt_date (updatedAt u)) ].

(** The row as [res.json] renders it. *)
Definition to_json (u : t) : json := JObj (fields u).
End User.

(** [UpsertUser]: the columns picked by [upsertUserSchema]. *)
Module UpsertUser.
Record t : Type := mk {
  id : string;
  email : jsval;
  firstName : jsval;
  lastName : jsval;
  profileImageUrl : jsval;
  role : Role
}.
End UpsertUser.

(** ** server/storage.ts *)

(** The password hashing library used by the storage layer. [bcrypt_hash]
    takes the password, the cost and the salt drawn for this call. *)
Class Bcrypt : Type := {
  bcrypt_hash : string -> Z -> string -> string;
  bcrypt_compare : string -> string -> bool
}.

Module Storage.

(** A failed statement. *)
Inductive DbError : Type :=
  | UniqueViolation (constraint : string).

(** Value stored by an INSERT for a nullable column without default. *)
Definition insert_column (v : jsval) : option string :=
  match v with
  | JsString s => Some s
  | _ => None
  end.

(** Value stored by an UPDATE ... SET: an [undefined] entry is skipped by
    the query builder and leaves the column as it was. *)
Definition set_column (v : jsval) (old : option string) : option string :=
  match v with
  | JsUndefined => old
  | JsNull => None
  | JsString s => Some s
  end.

(** [email] is declared [unique()]: would storing [e] on the row keyed
    [id] collide with a different row? *)
Definition email_taken (db : list User.t) (id : string) (e : option string) : bool :=
  match e with
  | Some _ =>
      existsb (fun r => bool_decide (User.id r <> id) && bool_decide (User.email r = e)) db
  | None => false
  end.

(** [getUser]: [select().from(users).where(eq(users.id, id))], first row. *)
Definition getUser (db : list User.t) (id : string) : option User.t :=
  head (filter (fun u => User.id u = id) db).

(** [getUserByUsername]. *)
Definition getUserByUsername (db : list User.t) (username : string) : option User.t :=
  head (filter (fun u => User.username u = Some username) db).

(** [getUsersByRole]. *)
Definition getUsersByRole (db : list User.t) (role : Role) : list User.t :=
  filter (fun u => User.role u = role) db.

(** The row an INSERT of [userData] creates at time [now]. *)
Definition inserted_row (now : Z) (userData : UpsertUser.t) : User.t :=
  {| User.id := UpsertUser.id userData;
     User.email := insert_column (UpsertUser.email userData);
     User.username := None;
     User.password := None;
     User.firstName := insert_column (UpsertUser.firstName userData);
     User.lastName := insert_column (UpsertUser.lastName userData);
     User.profileImageUrl := insert_column (UpsertUser.profileImageUrl userData);
     User.role := UpsertUser.role userData;
     User.organization := None;
     User.isActive := Some true;
     User.createdAt := Some now;
     User.updatedAt := Some now |}.

(** The row after [set: { ...userData, updatedAt: new Date() }]. *)
Definition updated_row (now : Z) (userData : UpsertUser.t) (old : User.t) : User.t :=
  {| User.id := UpsertUser.id userData;
     User.email := set_column (UpsertUser.email userData) (User.email old);
     User.username := User.username old;
     User.password := User.password old;
     User.firstName := set_column (UpsertUser.firstName userData) (User.firstName old);
     User.lastName := set_column (UpsertUser.lastName userData) (User.lastName old);
     User.profileImageUrl :=
       set_column (UpsertUser.profileImageUrl userData) (User.profileImageUrl old);
     User.role := UpsertUser.role userData;
     User.organization := User.organization old;
     User.isActive := User.isActive old;
     User.createdAt := User.createdAt old;
     User.updatedAt := Some now |}.

(** [upsertUser]: INSERT ... ON CONFLICT (id) DO UPDATE ... RETURNING.
    Yields the new table and the returned row. *)
Definition upsertUser (now : Z) (userData : UpsertUser.t) (db : list User.t)
  : result DbError (list User.t * User.t) :=
  let id := UpsertUser.id userData in
  match getUser db id with
  | Some old =>
      let row := updated_row now userData old in
      if email_taken db id (User.email row)
      then Err (UniqueViolation "users_email_unique")
      else Ok (map (fun r => if bool_decide (User.id r = id)
                             then updated_row now userData r else r) db, row)
  | None =>
      let row := inserted_row now userData in
      if email_taken db id (User.email row)
      then Err (UniqueViolation "users_email_unique")
      else Ok (db ++ [row], row)
  end.

(** [validatePassword]. *)
Definition validatePassword `{Bcrypt} (user : User.t) (password : string) : bool :=
  match User.password user with
  | Some hash => if truthy_string hash then bcrypt_compare password hash else false
  | None => false
  end.

(** The argument of [createUserWithPassword]. *)
Record NewLocalUser : Type := mkNewLocalUser {
  nl_username : string;
  nl_password : string;
  nl_email : jsval;
  nl_firstName : jsval;
  nl_lastName : jsval;
  nl_role : Role
}.

(** [createUserWithPassword]: hash with cost 12, INSERT ... RETURNING.
    [uuid] is the key [gen_random_uuid()] draws and [salt] the salt drawn
    by the hashing library. *)
Definition createUserWithPassword `{Bcrypt} (now : Z) (uuid salt : string)
    (userData : NewLocalUser) (db : list User.t)
  : result DbError (list User.t * User.t) :=
  let hashedPassword := bcrypt_hash (nl_password userData) 12 salt in
  let row :=
    {| User.id := uuid;
       User.email := insert_column (nl_email userData);
       User.username := Some (nl_username userData);
       User.password := Some hashedPassword;
       User.firstName := insert_column (nl_firstName userData);
       User.lastName := insert_column (nl_lastName userData);
       User.profileImageUrl := None;
       User.role := nl_role userData;
       User.organization := None;
       User.isActive := Some true;
       User.createdAt := Some now;
       User.updatedAt := Some now |} in
  match getUser db uuid with
  | Some _ => Err (UniqueViolation "users_pkey")
  | None =>
      if email_taken db uuid (User.email row)
      then Err (UniqueViolation "users_email_unique")
      else Ok (db ++ [row], row)
  end.

End Storage.

(** ** server/authSession.ts *)

Module AuthSession.

(** The identity-provider claim set, as far as the code reads it. *)
Module Claims.
Record t : Type := mk {
  sub : string;
  email : jsval;
  first_name : jsval;
  last_name : jsval;
  profile_image_url : jsval;
  exp : option Z
}.
End Claims.

(** A token endpoint response: [claims ()] may be [undefined]. *)
Module TokenResponse.
Record t : Type := mk {
  claims : option Claims.t;
  access_token : string;
  refresh_token : option string
}.
End TokenResponse.

(** The user object of a federated login. *)
Module OIDCUser.
Record t : Type := mk {
  claims : option Claims.t;
  access_token : string;
  refresh_token : option string;
  expires_at : option Z
}.
End OIDCUser.

(** [req.user]: either the federated user object or a [users] row.  The
    code tells them apart by probing properties, see the accessors below. *)
Inductive Principal : Type :=
  | POidc (o : OIDCUser.t)
  | PLocal (u : User.t).

(** [user.claims && user.access_token]. *)
Definition has_oidc_shape (user : Principal) : bool :=
  match user with
  | POidc o => bool_decide (is_Some (OIDCUser.claims o))
               && truthy_string (OIDCUser.access_token o)
  | PLocal _ => false
  end.

(** [user.id]. *)
Definition user_id (user : Principal) : option string :=
  match user with
  | POidc _ => None
  | PLocal u => Some (User.id u)
  end.

(** [OIDCSessionData] without its [type] tag. *)
Module OIDCSessionData.
Record t : Type := mk {
  claims : option Claims.t;
  access_token : string;
  refresh_token : option string;
  expires_at : option Z
}.
End OIDCSessionData.

(** [AuthSessionData], tagged by [type]; [OtherSessionData] is whatever
    else a session row may hold. *)
Inductive AuthSessionData : Type :=
  | SessOidc (d : OIDCSessionData.t)
  | SessLocal (userId : string)
  | OtherSessionData (type : string).

(** [passport.serializeUser] callback. *)
Definition serializeUser (user : Principal) : result string AuthSessionData :=
  match user with
  | POidc o =>
      if has_oidc_shape user then
        Ok (SessOidc {| OIDCSessionData.claims := OIDCUser.claims o;
                        OIDCSessionData.access_token := OIDCUser.access_token o;
                        OIDCSessionData.refresh_token := OIDCUser.refresh_token o;
                        OIDCSessionData.expires_at := OIDCUser.expires_at o |})
      else Err "Unknown user type for serialization"
  | PLocal u =>
      if truthy_string (User.id u) then Ok (SessLocal (User.id u))
      else Err "Unknown user type for serialization"
  end.

(** [passport.deserializeUser] callback. *)
Definition deserializeUser (db : list User.t) (sessionData : AuthSessionData)
  : result string Principal :=
  match sessionData with
  | SessOidc d =>
      Ok (POidc {| OIDCUser.claims := OIDCSessionData.claims d;
                   OIDCUser.access_token := OIDCSessionData.access_token d;
                   OIDCUser.refresh_token := OIDCSessionData.refresh_token d;
                   OIDCUser.expires_at := OIDCSessionData.expires_at d |})
  | SessLocal userId =>
      match Storage.getUser db userId with
      | Some user => Ok (PLocal user)
      | None => Err "User not found"
      end
  | OtherSessionData _ => Err "Unknown session data type"
  end.

(** [createOIDCUser]. *)
Definition createOIDCUser (tokens : TokenResponse.t) : OIDCUser.t :=
  {| OIDCUser.claims := TokenResponse.claims tokens;
     OIDCUser.access_token := TokenResponse.access_token tokens;
     OIDCUser.refresh_token := TokenResponse.refresh_token tokens;
     OIDCUser.expires_at := c ← TokenResponse.claims tokens; Claims.exp c |}.

(** [updateUserSession]: the in-place update of the user object. *)
Definition updateUserSession (user : OIDCUser.t) (tokenResponse : TokenResponse.t)
  : OIDCUser.t :=
  let newClaims := TokenResponse.claims tokenResponse in
  {| OIDCUser.claims := newClaims;
     OIDCUser.access_token := TokenResponse.access_token tokenResponse;
     OIDCUser.refresh_token :=
       if truthy_opt (TokenResponse.refresh_token tokenResponse)
       then TokenResponse.refresh_token tokenResponse
       else OIDCUser.refresh_token user;
     OIDCUser.expires_at := c ← newClaims; Claims.exp c |}.

(** [getUserId], on [req.user]. *)
Definition getUserId (req_user : option Principal) : option string :=
  match req_user with
  | None => None
  | Some (POidc o) =>
      match OIDCUser.claims o with
      | Some c => if truthy_string (Claims.sub c) then Some (Claims.sub c) else None
      | None => None
      end
  | Some (PLocal u) =>
      if truthy_string (User.id u) then Some (User.id u) else None
  end.

(** *** The identity provider and the calls made to it *)

(** Issuer metadata returned by discovery. *)
Record Configuration : Type := mkConfiguration { issuer : string; client_id : string }.

(** How the provider answers; [None] is a call that throws (network error,
    revoked or expired refresh token). *)
Record Provider : Type := mkProvider {
  discovery : option Configuration;
  refreshTokenGrant : Configuration -> string -> option TokenResponse.t
}.

(** A request sent over the network. *)
Inductive NetCall : Type :=
  | Discovery
  | TokenEndpoint (refresh_token : string).

(** Process state outside the request: the memoized discovery result with
    the time it was fetched, and the log of network requests. *)
Record Net : Type := mkNet {
  oidc_cache : option (Z * option Configuration);
  calls : list NetCall
}.

(** Computations that read the clock-independent provider and thread [Net]. *)
Definition M (A : Type) : Type := Net -> A * Net.

Definition ret {A} (a : A) : M A := fun st => (a, st).

Definition bind {A B} (m : M A) (k : A -> M B) : M B :=
  fun st => let '(a, st') := m st in k a st'.

Notation "x <<- m ;; k" := (bind m (fun x => k))
  (at level 100, m at next level, right associativity).

(** [maxAge] of the memoized discovery, in milliseconds. *)
Definition maxAge : Z := 3600 * 1000.

(** [getOidcConfig]: the memoized [client.discovery]. *)
Definition getOidcConfig (P : Provider) (now_ms : Z) : M (option Configuration) :=
  fun st =>
    let fetch :=
      (discovery P,
       {| oidc_cache := Some (now_ms, discovery P);
          calls := calls st ++ [Discovery] |}) in
    match oidc_cache st with
    | Some (fetched, r) => if now_ms <? fetched + maxAge then (r, st) else fetch
    | None => fetch
    end.

(** [client.refreshTokenGrant (config, refreshToken)]. *)
Definition call_refreshTokenGrant (P : Provider) (config : Configuration)
    (refreshToken : string) : M (option TokenResponse.t) :=
  fun st =>
    (refreshTokenGrant P config refreshToken,
     {| oidc_cache := oidc_cache st;
        calls := calls st ++ [TokenEndpoint refreshToken] |}).

(** The two awaited calls of the [try] block; [None] when either throws. *)
Definition refresh_exchange (P : Provider) (now_ms : Z) (refreshToken : string)
  : M (option TokenResponse.t) :=
  config <<- getOidcConfig P now_ms ;;
  match config with
  | Some config => call_refreshTokenGrant P config refreshToken
  | None => ret None
  end.

(** The request as the middleware sees it. *)
Record Req : Type := mkReq {
  isAuthenticated : bool;
  user : option Principal
}.

(** What a middleware does: pass on, or answer. *)
Inductive Verdict : Type :=
  | Next
  | Reply (r : Response).

Definition unauthorized (msg : string) : Verdict :=
  Reply {| status := 401; body := message_body msg |}.

(** [unifiedIsAuthenticated].  [now_ms] is [Date.now ()].  Returns the
    verdict and the request with its user object as the call left it. *)
Definition unifiedIsAuthenticated (P : Provider) (now_ms : Z) (req : Req)
  : M (Verdict * Req) :=
  match isAuthenticated req, user req with
  | true, Some (POidc o) =>
      if has_oidc_shape (POidc o) then
        match OIDCUser.expires_at o with
        | Some expires_at =>
            if expires_at =? 0 then ret (unauthorized "Unauthorized", req)
            else
              let now := now_ms / 1000 in
              if now <=? expires_at then ret (Next, req)
              else
                match OIDCUser.refresh_token o with
                | Some refreshToken =>
                    if truthy_string refreshToken then
                      r <<- refresh_exchange P now_ms refreshToken ;;
                      match r with
                      | Some tokenResponse =>
                          ret (Next,
                               {| isAuthenticated := isAuthenticated req;
                                  user := Some (POidc (updateUserSession o tokenResponse)) |})
                      | None => ret (unauthorized "Session expired", req)
                      end
                    else ret (unauthorized "Unauthorized", req)
                | None => ret (unauthorized "Unauthorized", req)
                end
        | None => ret (unauthorized "Unauthorized", req)
        end
      else
        (* the federated user object has no [id] property *)
        ret (unauthorized "Unauthorized", req)
  | true, Some (PLocal u) =>
      (* a [users] row has no [claims] property *)
      if truthy_string (User.id u) then ret (Next, req)
      else ret (unauthorized "Unauthorized", req)
  | _, _ => ret (unauthorized "Unauthorized", req)
  end.

(** The middleware run on successive requests of one session, at the given
    clock readings; stops at the first request it answers itself. *)
Fixpoint run_gate (P : Provider) (clock : list Z) (req : Req) : M (Verdict * Req) :=
  match clock with
  | [] => ret (Next, req)
  | now_ms :: rest =>
      r <<- unifiedIsAuthenticated P now_ms req ;;
      match r with
      | (Next, req') => run_gate P rest req'
      | (Reply resp, req') => ret (Reply resp, req')
      end
  end.

End AuthSession.

(** ** server/replitAuth.ts *)

Module ReplitAuth.
Import AuthSession.

(** The role given to a federated user seen for the first time. *)
Definition new_user_role (NODE_ENV : option string) (intendedRole : option string)
    (db : list User.t) : Role :=
  let existingUsers := Storage.getUsersByRole db admin in
  let isFirstUser := bool_decide (length existingUsers = 0%nat) in
  if isFirstUser then admin
  else
    match intendedRole with
    | Some r =>
        match parse_role r with
        | Some intended =>
            if bool_decide (NODE_ENV = Some "development") then intended else client
        | None => client
        end
    | None => client
    end.

(** The profile columns written from a claim set, with the given role. *)
Definition profile_of_claims (claims : Claims.t) (role : Role) : UpsertUser.t :=
  {| UpsertUser.id := Claims.sub claims;
     UpsertUser.email := Claims.email claims;
     UpsertUser.firstName := Claims.first_name claims;
     UpsertUser.lastName := Claims.last_name claims;
     UpsertUser.profileImageUrl := Claims.profile_image_url claims;
     UpsertUser.role := role |}.

(** [upsertUser (claims, intendedRole)]; yields the table afterwards. *)
Definition upsertUser (NODE_ENV : option string) (now : Z) (claims : Claims.t)
    (intendedRole : option string) (db : list User.t)
  : result Storage.DbError (list User.t) :=
  let userId := Claims.sub claims in
  match Storage.getUser db userId with
  | Some existingUser =>
      match Storage.upsertUser now (profile_of_claims claims (User.role existingUser)) db with
      | Ok (db', _) => Ok db'
      | Err e => Err e
      end
  | None =>
      let role := new_user_role NODE_ENV intendedRole db in
      match Storage.upsertUser now (profile_of_claims claims role) db with
      | Ok (db', _) => Ok db'
      | Err e => Err e
      end
  end.

(** Why a federated login is abandoned. *)
Inductive LoginError : Type :=
  | MissingClaims
  | StorageError (e : Storage.DbError).

(** The strategy callback of a completed code exchange: [intendedRole] is
    the hint stashed in the session.  Yields the user object handed to
    passport, the table, and the session hint afterwards (cleared). *)
Definition verify (NODE_ENV : option string) (now : Z) (intendedRole : option string)
    (tokens : TokenResponse.t) (db : list User.t)
  : result LoginError (OIDCUser.t * list User.t * option string) :=
  let user := createOIDCUser tokens in
  match TokenResponse.claims tokens with
  | Some claims =>
      match upsertUser NODE_ENV now claims intendedRole db with
      | Ok db' => Ok (user, db', None)
      | Err e => Err (StorageError e)
      end
  | None => Err MissingClaims
  end.

End ReplitAuth.

(** ** server/localAuth.ts *)

Module LocalAuth.

(** What the verify callback hands to [done]: the user, or [false] with a
    message. *)
Inductive Verified : Type :=
  | Authenticated (user : User.t)
  | Refused (message : string).

(** The verify callback of the local strategy. *)
Definition verify `{Bcrypt} (db : list User.t) (username password : string) : Verified :=
  match Storage.getUserByUsername db username with
  | None => Refused "Invalid username or password"
  | Some user =>
      if negb (Storage.validatePassword user password)
      then Refused "Invalid username or password"
      else
        match User.isActive user with
        | Some true => Authenticated user
        | _ => Refused "Account is disabled"
        end
  end.

(** The local strategy itself: it answers "Missing credentials" without
    calling the verify callback when a field is empty or absent. *)
Definition authenticate `{Bcrypt} (db : list User.t) (username password : jsval) : Verified :=
  match username, password with
  | JsString u, JsString p =>
      if truthy_string u && truthy_string p then verify db u p
      else Refused "Missing credentials"
  | _, _ => Refused "Missing credentials"
  end.

End LocalAuth.

(** ** server/routes.ts *)

Module Routes.
Import AuthSession.

Definition reply (code : Z) (b : json) : Response := {| status := code; body := b |}.

(** [req.login (user, cb)]: the session manager serializes the user. *)
Definition req_login (user : Principal) : result string AuthSessionData :=
  serializeUser user.

(** The request data [handleDevLogin] reads. *)
Record DevLoginReq : Type := mkDevLoginReq {
  body_userId : jsval;
  query_userId : jsval;
  body_role : jsval;
  query_role : jsval
}.

(** [req.body?.userId || req.query?.userId || 'dev-user']. *)
Definition dev_userId (r : DevLoginReq) : string :=
  match js_or (body_userId r) (query_userId r) with
  | JsString s => if truthy_string s then s else "dev-user"
  | _ => "dev-user"
  end.

(** [req.body?.role || req.query?.role], when it names a role. *)
Definition dev_requested_role (r : DevLoginReq) : option Role :=
  match js_or (body_role r) (query_role r) with
  | JsString s => if truthy_string s then parse_role s else None
  | _ => None
  end.

(** The role [handleDevLogin] gives to a user it creates. *)
Definition dev_user_role (r : DevLoginReq) (db : list User.t) : Role :=
  let existingUsers := Storage.getUsersByRole db admin in
  let isFirstUser := bool_decide (length existingUsers = 0%nat) in
  match dev_requested_role r with
  | Some role => role
  | None => if isFirstUser then admin else client
  end.

(** The user [handleDevLogin] logs in, creating it when unknown; yields the
    table afterwards as well. *)
Definition dev_find_or_create (now : Z) (r : DevLoginReq) (db : list User.t)
  : result Storage.DbError (list User.t * User.t) :=
  let userId := dev_userId r in
  match Storage.getUser db userId with
  | Some user => Ok (db, user)
  | None =>
      Storage.upsertUser now
        {| UpsertUser.id := userId;
           UpsertUser.email := JsString (userId +:+ "@dev.local");
           UpsertUser.firstName := JsString "Dev";
           UpsertUser.lastName := JsString "User";
           UpsertUser.profileImageUrl := JsNull;
           UpsertUser.role := dev_user_role r db |} db
  end.

(** [handleDevLogin] (registered in development only): the response, the
    table and the session record afterwards. *)
Definition handleDevLogin (now : Z) (r : DevLoginReq) (db : list User.t)
  : Response * list User.t * option AuthSessionData :=
  match dev_find_or_create now r db with
  | Ok (db', user) =>
      match req_login (PLocal user) with
      | Ok sess =>
          (reply 200 (JObj [("message", JStr "Login successful");
                            ("user", User.to_json user)]), db', Some sess)
      | Err _ => (reply 500 (message_body "Login session failed"), db', None)
      end
  | Err _ => (reply 500 (message_body "Login failed"), db, None)
  end.

(** POST /api/local-login: the response and the session record. *)
Definition local_login `{Bcrypt} (db : list User.t) (username password : jsval)
  : Response * option AuthSessionData :=
  match LocalAuth.authenticate db username password with
  | LocalAuth.Refused message =>
      (reply 401 (message_body (if truthy_string message then message
                                else "Invalid credentials")), None)
  | LocalAuth.Authenticated user =>
      match req_login (PLocal user) with
      | Err _ => (reply 500 (message_body "Login failed"), None)
      | Ok sess =>
          (reply 200
             (JObj [("message", JStr "Login successful");
                    ("user", JObj [("id", JStr (User.id user));
                                   ("username", json_opt_string (User.username user));
                                   ("role", JStr (role_name (User.role user)));
                                   ("firstName", json_opt_string (User.firstName user));
                                   ("lastName", json_opt_string (User.lastName user))])]),
           Some sess)
      end
  end.

(** A route wrapped by the [unifiedIsAuthenticated] middleware. *)
Definition guarded {A} (P : Provider) (now_ms : Z) (req : Req)
    (handler : Req -> A) (rejected : Response -> A) : M A :=
  v <<- unifiedIsAuthenticated P now_ms req ;;
  match v with
  | (Next, req') => ret (handler req')
  | (Reply resp, _) => ret (rejected resp)
  end.

(** [storage.getUser] on an id that may be [null]: no row matches [null]. *)
Definition getUser_opt (db : list User.t) (id : option string) : option User.t :=
  id ≫= Storage.getUser db.

(** Handler of GET /api/auth/user. *)
Definition auth_user_handler (db : list User.t) (req : Req) : Response :=
  let userId :=
    match user req with
    | Some (POidc o) =>
        if bool_decide (is_Some (OIDCUser.claims o)) then getUserId (user req) else None
    | Some (PLocal u) => Some (User.id u)
    | None => None
    end in
  match getUser_opt db userId with
  | None => reply 404 (message_body "User not found")
  | Some user => reply 200 (User.to_json user)
  end.

(** GET /api/auth/user. *)
Definition get_auth_user (P : Provider) (now_ms : Z) (db : list User.t) (req : Req)
  : M Response :=
  guarded P now_ms req (auth_user_handler db) (fun r => r).

(** [currentUser?.role !== 'admin']. *)
Definition not_admin (db : list User.t) (req : Req) : bool :=
  match getUser_opt db (getUserId (user req)) with
  | Some currentUser => negb (bool_decide (User.role currentUser = admin))
  | None => true
  end.

Definition access_denied : Response :=
  reply 403 (message_body "Access denied. Admin role required.").

(** Handler of GET /api/users; [role] is [req.query.role]. *)
Definition users_handler (db : list User.t) (role : jsval) (req : Req) : Response :=
  if not_admin db req then access_denied
  else
    let all :=
      Storage.getUsersByRole db admin ++ Storage.getUsersByRole db pentester
        ++ Storage.getUsersByRole db client in
    let users :=
      match role with
      | JsString s =>
          if truthy_string s then
            match parse_role s with
            | Some r => Storage.getUsersByRole db r
            | None => all
            end
          else all
      | _ => all
      end in
    reply 200 (JArr (map User.to_json users)).

(** GET /api/users. *)
Definition get_users (P : Provider) (now_ms : Z) (db : list User.t) (role : jsval)
    (req : Req) : M Response :=
  guarded P now_ms req (users_handler db role) (fun r => r).

(** The body of POST /api/admin/create-user. *)
Record CreateUserBody : Type := mkCreateUserBody {
  cu_username : jsval;
  cu_password : jsval;
  cu_email : jsval;
  cu_firstName : jsval;
  cu_lastName : jsval;
  cu_role : jsval
}.

(** [const { password: _, ...userWithoutPassword } = newUser]. *)
Definition userWithoutPassword (newUser : User.t) : json :=
  JObj (filter (fun kv => fst kv <> "password") (User.fields newUser)).

(** Handler of POST /api/admin/create-user: the response and the table.
    [uuid] and [salt] are the random draws of this request. *)
Definition create_user_handler `{Bcrypt} (now : Z) (uuid salt : string)
    (db : list User.t) (b : CreateUserBody) (req : Req) : Response * list User.t :=
  if not_admin db req then (access_denied, db)
  else
    match cu_username b, cu_password b, cu_role b with
    | JsString username, JsString password, JsString role =>
        if negb (truthy_string username && truthy_string password && truthy_string role)
        then (reply 400 (message_body "Username, password, and role are required"), db)
        else
          match (if bool_decide (role = "pentester") then Some pentester
                 else if bool_decide (role = "client") then Some client else None) with
          | None => (reply 400 (message_body "Role must be pentester or client"), db)
          | Some role =>
              match Storage.getUserByUsername db username with
              | Some _ => (reply 409 (message_body "Username already exists"), db)
              | None =>
                  match Storage.createUserWithPassword now uuid salt
                          {| Storage.nl_username := username;
                             Storage.nl_password := password;
                             Storage.nl_email := cu_email b;
                             Storage.nl_firstName := cu_firstName b;
                             Storage.nl_lastName := cu_lastName b;
                             Storage.nl_role := role |} db with
                  | Ok (db', newUser) =>
                      (reply 201 (JObj [("message", JStr "User created successfully");
                                        ("user", userWithoutPassword newUser)]), db')
                  | Err _ => (reply 500 (message_body "Failed to create user"), db)
                  end
              end
          end
    | _, _, _ => (reply 400 (message_body "Username, password, and role are required"), db)
    end.

(** POST /api/admin/create-user. *)
Definition create_user `{Bcrypt} (P : Provider) (now_ms : Z) (uuid salt : string)
    (db : list User.t) (b : CreateUserBody) (req : Req) : M (Response * list User.t) :=
  guarded P now_ms req (create_user_handler now_ms uuid salt db b) (fun r => (r, db)).

End Routes.

(** ** Repeated discovery *)

Module Discovery.
Import AuthSession.

(** [getOidcConfig] awaited at the successive clock readings, with the
    answers in order. *)
Fixpoint poll_config (P : Provider) (clock : list Z) : M (list (option Configuration)) :=
  match clock with
  | [] => ret []
  | now_ms :: rest =>
      r <<- getOidcConfig P now_ms ;;
      rs <<- poll_config P rest ;;
      ret (r :: rs)
  end.

End Discovery.

(** ** server/replitAuth.ts: the login endpoints *)

Module LoginRoutes.
Import AuthSession.


(** GET /api/login/admin, /api/login/pentester and /api/login/client. *)
Definition login_as (role : Role) : option string := Some (role_name role).


End LoginRoutes.

(** ** server/localAuth.ts: the role middlewares *)

Module LocalGuards.
Import AuthSession.

(** [requireAuth]. *)
Definition requireAuth (req : Req) : Verdict :=
  if isAuthenticated req then Next
  else Reply {| status := 401; body := message_body "Authentication required" |}.

(** [req.user.role]: only a [users] row has the property. *)
Definition user_role (user : Principal) : option Role :=
  match user with
  | POidc _ => None
  | PLocal u => Some (User.role u)
  end.

(** [requireAdmin]; [Err] is the exception of reading [role] off a missing
    [req.user]. *)
Definition requireAdmin (req : Req) : result string Verdict :=
  if negb (isAuthenticated req)
  then Ok (Reply {| status := 401; body := message_body "Authentication required" |})
  else
    match user req with
    | None => Err "TypeError"
    | Some user =>
        if bool_decide (user_role user = Some admin) then Ok Next
        else Ok (Reply {| status := 403; body := message_body "Admin access required" |})
    end.

End LocalGuards.

(** ** server/storage.ts: user management *)

Module UserStore.

(** A loosely typed boolean field. *)
Inductive jsbool : Type :=
  | JbUndefined
  | JbNull
  | JbBool (b : bool).

(** [Partial<InsertUser>]: the columns [updateUser] may be given. *)
Record UserPatch : Type := mkUserPatch {
  p_email : jsval;
  p_username : jsval;
  p_password : jsval;
  p_firstName : jsval;
  p_lastName : jsval;
  p_profileImageUrl : jsval;
  p_role : jsval;
  p_organization : jsval;
  p_isActive : jsbool
}.

(** A failed write. *)
Inductive WriteError : Type :=
  | Constraint (e : Storage.DbError)
  | InvalidEnum (value : string)
  | NotNull (column : string)
  | ForeignKey (table : string).

(** SET on the boolean column; an [undefined] entry is skipped. *)
Definition set_bool (v : jsbool) (old : option bool) : option bool :=
  match v with
  | JbUndefined => old
  | JbNull => None
  | JbBool b => Some b
  end.

(** What the [role] entry asks for: nothing, NULL, or a value of the
    [user_role] enum; a string outside the enum is refused when the
    statement is sent. *)
Definition role_assignment (v : jsval) : result WriteError (option (option Role)) :=
  match v with
  | JsUndefined => Ok None
  | JsNull => Ok (Some None)
  | JsString s =>
      match parse_role s with
      | Some r => Ok (Some (Some r))
      | None => Err (InvalidEnum s)
      end
  end.

(** The row after [set: { ...userData, updatedAt: new Date() }], with the
    role already resolved. *)
Definition patched_row (now : Z) (userData : UserPatch) (role : Role) (old : User.t)
  : User.t :=
  {| User.id := User.id old;
     User.email := Storage.set_column (p_email userData) (User.email old);
     User.username := Storage.set_column (p_username userData) (User.username old);
     User.password := Storage.set_column (p_password userData) (User.password old);
     User.firstName := Storage.set_column (p_firstName userData) (User.firstName old);
     User.lastName := Storage.set_column (p_lastName userData) (User.lastName old);
     User.profileImageUrl :=
       Storage.set_column (p_profileImageUrl userData) (User.profileImageUrl old);
     User.role := role;
     User.organization := Storage.set_column (p_organization userData) (User.organization old);
     User.isActive := set_bool (p_isActive userData) (User.isActive old);
     User.createdAt := User.createdAt old;
     User.updatedAt := Some now |}.

(** [updateUser]: UPDATE ... WHERE id = userId RETURNING; the returned row
    is [undefined] when no row has that id. *)
Definition updateUser (now : Z) (userId : string) (userData : UserPatch)
    (db : list User.t) : result WriteError (list User.t * option User.t) :=
  match role_assignment (p_role userData) with
  | Err e => Err e
  | Ok assignment =>
      match Storage.getUser db userId with
      | None => Ok (db, None)
      | Some old =>
          match assignment with
          | Some None => Err (NotNull "role")
          | _ =>
              let role := default (User.role old) (mjoin assignment) in
              let row := patched_row now userData role old in
              if Storage.email_taken db userId (User.email row)
              then Err (Constraint (Storage.UniqueViolation "users_email_unique"))
              else Ok (map (fun r => if bool_decide (User.id r = userId)
                                     then patched_row now userData
                                            (default (User.role r) (mjoin assignment)) r
                                     else r) db, Some row)
          end
      end
  end.


(** [deleteUser].  [referenced] tells whether a row of one of the tables
    with a foreign key to [users] (projects, assignments, vulnerabilities,
    totals, reports, audit logs, notifications) points at the user; the
    keys are declared without a delete rule, so such a user cannot go. *)
Definition deleteUser (referenced : string -> bool) (userId : string) (db : list User.t)
  : result WriteError (list User.t) :=
  if bool_decide (is_Some (Storage.getUser db userId)) && referenced userId
  then Err (ForeignKey "users")
  else Ok (filter (fun u => User.id u <> userId) db).

End UserStore.

(** ** server/routes.ts: user management *)

Module UserRoutes.
Import AuthSession UserStore.

(** [auditActionEnum]. *)
Inductive AuditAction : Type := created | updated | deleted | viewed | downloaded.

(** The argument of [createAuditLog]. *)
Record InsertAuditLog : Type := mkInsertAuditLog {
  userId : string;
  action : AuditAction;
  resourceType : string;
  resourceId : string;
  details : json;
  ipAddress : option string;
  userAgent : option string
}.

(** What the handlers read of the connection: [req.ip] and the User-Agent
    header. *)
Record Client : Type := mkClient { ip : option string; user_agent : option string }.

Definition json_of_jsval (k : string) (v : jsval) : list (string * json) :=
  match v with
  | JsUndefined => []
  | JsNull => [(k, JNull)]
  | JsString s => [(k, JStr s)]
  end.

Definition json_of_jsbool (k : string) (v : jsbool) : list (string * json) :=
  match v with
  | JbUndefined => []
  | JbNull => [(k, JNull)]
  | JbBool b => [(k, JBool b)]
  end.

(** The request body as it is stored in the audit details. *)
Definition patch_json (userData : UserPatch) : json :=
  JObj (json_of_jsval "email" (p_email userData)
        ++ json_of_jsval "username" (p_username userData)
        ++ json_of_jsval "password" (p_password userData)
        ++ json_of_jsval "firstName" (p_firstName userData)
        ++ json_of_jsval "lastName" (p_lastName userData)
        ++ json_of_jsval "profileImageUrl" (p_profileImageUrl userData)
        ++ json_of_jsval "role" (p_role userData)
        ++ json_of_jsval "organization" (p_organization userData)
        ++ json_of_jsbool "isActive" (p_isActive userData)).

(** [userData.role !== 'admin']. *)
Definition is_not_admin_role (role : jsval) : bool :=
  match role with
  | JsString s => negb (bool_decide (s = "admin"))
  | _ => true
  end.

(** Handler of PUT /api/users/:id; [id] is [req.params.id] and [userData]
    the request body.  Yields the response, the table and the audit entry
    written, if any. *)
Definition update_user_handler (now : Z) (client : Client) (db : list User.t)
    (id : string) (userData : UserPatch) (req : Req)
  : Response * list User.t * option InsertAuditLog :=
  match getUserId (user req) with
  | None => (Routes.access_denied, db, None)
  | Some me =>
      match Storage.getUser db me with
      | None => (Routes.access_denied, db, None)
      | Some currentUser =>
          if negb (bool_decide (User.role currentUser = admin))
          then (Routes.access_denied, db, None)
          else if bool_decide (id = User.id currentUser) && truthy (p_role userData)
                  && is_not_admin_role (p_role userData)
          then (Routes.reply 400 (message_body "Cannot change your own admin role"), db, None)
          else
            match updateUser now id userData db with
            | Ok (db', Some user) =>
                (Routes.reply 200 (User.to_json user), db',
                 Some {| userId := me;
                         action := updated;
                         resourceType := "user";
                         resourceId := User.id user;
                         details := JObj [("changes", patch_json userData)];
                         ipAddress := ip client;
                         userAgent := user_agent client |})
            | Ok (db', None) =>
                (* [user.id] on the missing row throws *)
                (Routes.reply 500 (message_body "Failed to update user"), db', None)
            | Err _ => (Routes.reply 500 (message_body "Failed to update user"), db, None)
            end
      end
  end.

(** Handler of DELETE /api/users/:id; a 204 has no body, rendered [JNull]. *)
Definition delete_user_handler (referenced : string -> bool) (client : Client)
    (db : list User.t) (id : string) (req : Req)
  : Response * list User.t * option InsertAuditLog :=
  match getUserId (user req) with
  | None => (Routes.access_denied, db, None)
  | Some me =>
      match Storage.getUser db me with
      | None => (Routes.access_denied, db, None)
      | Some currentUser =>
          if negb (bool_decide (User.role currentUser = admin))
          then (Routes.access_denied, db, None)
          else if bool_decide (id = User.id currentUser)
          then (Routes.reply 400 (message_body "Cannot delete your own account"), db, None)
          else
            match Storage.getUser db id with
            | None => (Routes.reply 404 (message_body "User not found"), db, None)
            | Some userToDelete =>
                match deleteUser referenced id db with
                | Ok db' =>
                    (Routes.reply 204 JNull, db',
                     Some {| userId := me;
                             action := deleted;
                             resourceType := "user";
                             resourceId := id;
                             details := JObj [("deletedUser", User.to_json userToDelete)];
                             ipAddress := ip client;
                             userAgent := user_agent client |})
                | Err _ => (Routes.reply 500 (message_body "Failed to delete user"), db, None)
                end
            end
      end
  end.

(** PUT /api/users/:id behind the gate. *)
Definition update_user (P : Provider) (now_ms : Z) (client : Client) (db : list User.t)
    (id : string) (userData : UserPatch) (req : Req)
  : M (Response * list User.t * option InsertAuditLog) :=
  Routes.guarded P now_ms req (update_user_handler now_ms client db id userData)
    (fun r => (r, db, None)).

(** DELETE /api/users/:id behind the gate. *)
Definition delete_user (P : Provider) (now_ms : Z) (referenced : string -> bool)
    (client : Client) (db : list User.t) (id : string) (req : Req)
  : M (Response * list User.t * option InsertAuditLog) :=
  Routes.guarded P now_ms req (delete_user_handler referenced client db id)
    (fun r => (r, db, None)).

End UserRoutes.

(** ** shared/schema.ts and server/storage.ts: projects, findings, reports *)

Module ProjectStore.
Import UserStore.

(** [projectStatusEnum]. *)
Inductive ProjectStatus : Type := planned | active | completed | on_hold.

#[global] Instance ProjectStatus_eq_dec : EqDecision ProjectStatus.
Proof. solve_decision. Defined.

(** [severityEnum]. *)
Inductive Severity : Type := critical | high | medium | low | informational.

#[global] Instance Severity_eq_dec : EqDecision Severity.
Proof. solve_decision. Defined.

(** [vulnerabilityStatusEnum]. *)
Inductive VulnerabilityStatus : Type := open | in_progress | resolved | false_positive.

(** A row of [projects]. *)
Module Project.
Record t : Type := mk {
  id : string;
  name : string;
  description : option string;
  type : string;
  clientId : string;
  status : option ProjectStatus;
  startDate : option Z;
  endDate : option Z;
  progress : option Z;
  createdAt : option Z;
  updatedAt : option Z
}.
End Project.

(** A row of [project_assignments]. *)
Module ProjectAssignment.
Record t : Type := mk {
  id : string;
  projectId : string;
  pentesterId : string;
  assignedAt : option Z
}.
End ProjectAssignment.

(** A row of [vulnerabilities]; the decimal score is kept as its text. *)
Module Vulnerability.
Record t : Type := mk {
  id : string;
  projectId : string;
  pentesterId : string;
  title : string;
  description : option string;
  severity : Severity;
  cvssScore : option string;
  impact : option string;
  proofOfConcept : option string;
  recommendation : option string;
  status : option VulnerabilityStatus;
  discoveredAt : option Z;
  resolvedAt : option Z;
  createdAt : option Z;
  updatedAt : option Z
}.
End Vulnerability.

(** A row of [vulnerability_totals]. *)
Module VulnerabilityTotals.
Record t : Type := mk {
  id : string;
  projectId : string;
  pentesterId : string;
  totalVulnerabilities : option Z;
  totalHigh : option Z;
  totalMedium : option Z;
  totalLow : option Z;
  createdAt : option Z;
  updatedAt : option Z
}.
End VulnerabilityTotals.

(** A row of [reports]. *)
Module Report.
Record t : Type := mk {
  id : string;
  projectId : string;
  pentesterId : string;
  filename : string;
  originalName : string;
  fileSize : Z;
  mimeType : string;
  version : option Z;
  isLatest : option bool;
  uploadedAt : option Z
}.
End Report.

(** A loosely typed integer field. *)
Inductive jsnum : Type :=
  | JnUndefined
  | JnNull
  | JnNum (n : Z).

(** [InsertReport]. *)
Module InsertReport.
Record t : Type := mk {
  projectId : string;
  pentesterId : string;
  filename : string;
  originalName : string;
  fileSize : Z;
  mimeType : string;
  version : jsnum;
  isLatest : jsbool
}.
End InsertReport.

(** The tables the functions below read and write. *)
Record Tables : Type := mkTables {
  users : list User.t;
  projects : list Project.t;
  projectAssignments : list ProjectAssignment.t;
  vulnerabilities : list Vulnerability.t;
  vulnerabilityTotals : list VulnerabilityTotals.t;
  reports : list Report.t
}.

(** The object [getVulnerabilityStats] returns. *)
Record SeverityCounts : Type := mkSeverityCounts {
  n_critical : nat;
  n_high : nat;
  n_medium : nat;
  n_low : nat;
  n_informational : nat
}.

(** [result[severity] = count]. *)
Definition set_count (result : SeverityCounts) (s : Severity) (n : nat) : SeverityCounts :=
  match s with
  | critical => {| n_critical := n; n_high := n_high result; n_medium := n_medium result;
                   n_low := n_low result; n_informational := n_informational result |}
  | high => {| n_critical := n_critical result; n_high := n; n_medium := n_medium result;
               n_low := n_low result; n_informational := n_informational result |}
  | medium => {| n_critical := n_critical result; n_high := n_high result; n_medium := n;
                 n_low := n_low result; n_informational := n_informational result |}
  | low => {| n_critical := n_critical result; n_high := n_high result;
              n_medium := n_medium result; n_low := n; n_informational := n_informational result |}
  | informational => {| n_critical := n_critical result; n_high := n_high result;
                        n_medium := n_medium result; n_low := n_low result;
                        n_informational := n |}
  end.

(** The per-severity row counts of the GROUP BY query: one row for each
    severity that occurs, here in order of first occurrence. *)
Definition count_by_severity (vs : list Vulnerability.t) : list (Severity * nat) :=
  map (fun s => (s, length (filter (fun v => Vulnerability.severity v = s) vs)))
      (remove_dups (map Vulnerability.severity vs)).

(** [getVulnerabilityStats]. *)
Definition getVulnerabilityStats (vs : list Vulnerability.t) : SeverityCounts :=
  fold_left (fun result stat => set_count result stat.1 stat.2)
            (count_by_severity vs)
            {| n_critical := 0; n_high := 0; n_medium := 0; n_low := 0;
               n_informational := 0 |}.

(** The object [getDashboardStats] returns. *)
Record DashboardStats : Type := mkDashboardStats {
  activeProjects : nat;
  totalVulnerabilities : nat;
  activeTesters : nat;
  totalClients : nat
}.

(** [getDashboardStats]. *)
Definition getDashboardStats (t : Tables) : DashboardStats :=
  {| activeProjects :=
       length (filter (fun p => Project.status p = Some active) (projects t));
     totalVulnerabilities := length (vulnerabilities t);
     activeTesters :=
       length (filter (fun u => User.role u = pentester /\ User.isActive u = Some true)
                      (users t));
     totalClients := length (filter (fun u => User.role u = client) (users t)) |}.

(** [getReportById]. *)
Definition getReportById (rs : list Report.t) (id : string) : option Report.t :=
  head (filter (fun r => Report.id r = id) rs).

(** [getLatestReportByProject]. *)
Definition getLatestReportByProject (rs : list Report.t) (projectId : string)
  : option Report.t :=
  head (filter (fun r => Report.projectId r = projectId /\ Report.isLatest r = Some true) rs).

(** [markOldReportsAsNotLatest]. *)
Definition markOldReportsAsNotLatest (projectId : string) (rs : list Report.t)
  : list Report.t :=
  map (fun r =>
         if bool_decide (Report.projectId r = projectId)
         then {| Report.id := Report.id r;
                 Report.projectId := Report.projectId r;
                 Report.pentesterId := Report.pentesterId r;
                 Report.filename := Report.filename r;
                 Report.originalName := Report.originalName r;
                 Report.fileSize := Report.fileSize r;
                 Report.mimeType := Report.mimeType r;
                 Report.version := Report.version r;
                 Report.isLatest := Some false;
                 Report.uploadedAt := Report.uploadedAt r |}
         else r) rs.

(** The row an INSERT of [reportData] creates: [version] defaults to 1 and
    [isLatest] to true. *)
Definition inserted_report (now : Z) (uuid : string) (reportData : InsertReport.t)
  : Report.t :=
  {| Report.id := uuid;
     Report.projectId := InsertReport.projectId reportData;
     Report.pentesterId := InsertReport.pentesterId reportData;
     Report.filename := InsertReport.filename reportData;
     Report.originalName := InsertReport.originalName reportData;
     Report.fileSize := InsertReport.fileSize reportData;
     Report.mimeType := InsertReport.mimeType reportData;
     Report.version :=
       match InsertReport.version reportData with
       | JnUndefined => Some 1
       | JnNull => None
       | JnNum n => Some n
       end;
     Report.isLatest :=
       match InsertReport.isLatest reportData with
       | JbUndefined => Some true
       | JbNull => None
       | JbBool b => Some b
       end;
     Report.uploadedAt := Some now |}.

(** [createReport]: the project and the pentester must exist (foreign
    keys) and the drawn id must be new. *)
Definition createReport (now : Z) (uuid : string) (reportData : InsertReport.t)
    (t : Tables) : result WriteError (Tables * Report.t) :=
  if negb (bool_decide (Exists (fun p => Project.id p = InsertReport.projectId reportData)
                               (projects t)))
  then Err (ForeignKey "projects")
  else if negb (bool_decide (is_Some (Storage.getUser (users t)
                                        (InsertReport.pentesterId reportData))))
  then Err (ForeignKey "users")
  else if bool_decide (is_Some (getReportById (reports t) uuid))
  then Err (Constraint (Storage.UniqueViolation "reports_pkey"))
  else
    let row := inserted_report now uuid reportData in
    Ok ({| users := users t; projects := projects t;
           projectAssignments := projectAssignments t;
           vulnerabilities := vulnerabilities t;
           vulnerabilityTotals := vulnerabilityTotals t;
           reports := reports t ++ [row] |}, row).

(** [getProjectsByClient]. *)
Definition getProjectsByClient (t : Tables) (clientId : string) : list Project.t :=
  filter (fun p => Project.clientId p = clientId) (projects t).

(** [getProjectsByPentester]: the assignments of the pentester joined with
    their projects. *)
Definition getProjectsByPentester (t : Tables) (pentesterId : string) : list Project.t :=
  a ← filter (fun a => ProjectAssignment.pentesterId a = pentesterId) (projectAssignments t);
  filter (fun p => Project.id p = ProjectAssignment.projectId a) (projects t).

(** [deleteProject]: four statements in a row, none of them undone when a
    later one fails.  The last fails when a row of [vulnerability_totals],
    which is not cleared, still refers to the project.  Yields the tables
    afterwards and the error thrown, if any. *)
Definition deleteProject (projectId : string) (t : Tables) : Tables * option WriteError :=
  let assignments' :=
    filter (fun a => ProjectAssignment.projectId a <> projectId) (projectAssignments t) in
  let vulnerabilities' :=
    filter (fun v => Vulnerability.projectId v <> projectId) (vulnerabilities t) in
  let reports' := filter (fun r => Report.projectId r <> projectId) (reports t) in
  let blocked :=
    bool_decide (Exists (fun p => Project.id p = projectId) (projects t))
    && bool_decide (Exists (fun x => VulnerabilityTotals.projectId x = projectId)
                           (vulnerabilityTotals t)) in
  ({| users := users t;
      projects := if blocked then projects t
                  else filter (fun p => Project.id p <> projectId) (projects t);
      projectAssignments := assignments';
      vulnerabilities := vulnerabilities';
      vulnerabilityTotals := vulnerabilityTotals t;
      reports := reports' |},
   if blocked then Some (ForeignKey "projects") else None).

(** The two writes of POST /api/reports/upload to [reports], in order:
    the reports of the project stop being the latest, then the new one is
    stored.  Yields the tables afterwards (the first write stays when the
    second fails) and the stored report or the error. *)
Definition store_upload (now : Z) (uuid : string) (reportData : InsertReport.t)
    (t : Tables) : Tables * result WriteError Report.t :=
  let marked :=
    {| users := users t; projects := projects t;
       projectAssignments := projectAssignments t;
       vulnerabilities := vulnerabilities t;
       vulnerabilityTotals := vulnerabilityTotals t;
       reports := markOldReportsAsNotLatest (InsertReport.projectId reportData) (reports t) |} in
  match createReport now uuid reportData marked with
  | Ok (t', report) => (t', Ok report)
  | Err e => (marked, Err e)
  end.

End ProjectStore.

(** * Vocabulary of the statements *)

Section Vocabulary.
Import AuthSession.

(** The identity a principal is looked up under: [claims.sub] for the
    federated variant, the row id for the local one. *)
Definition identity (p : Principal) : string :=
  match p with
  | POidc o => default "" (Claims.sub <$> OIDCUser.claims o)
  | PLocal u => User.id u
  end.

(** A principal as the two login paths hand it to the codec: a federated
    user object with [claims] and a non-empty [access_token], or a row
    whose non-empty id resolves in the table. *)
Definition producible (db : list User.t) (p : Principal) : Prop :=
  match p with
  | POidc o => is_Some (OIDCUser.claims o) /\ OIDCUser.access_token o <> ""
  | PLocal u => User.id u <> "" /\ is_Some (Storage.getUser db (User.id u))
  end.

(** [deserialize (serialize p)]. *)
Definition roundtrip (db : list User.t) (p : Principal) : result string Principal :=
  match serializeUser p with
  | Ok sessionData => deserializeUser db sessionData
  | Err e => Err e
  end.

(** A federated principal: the user object carries [claims] and a
    non-empty [access_token]. *)
Definition federated (o : OIDCUser.t) : Prop := has_oidc_shape (POidc o) = true.

(** The row of a returning user after the profile refresh of a login. *)
Definition refreshed_profile (now : Z) (claims : Claims.t) (u : User.t) : User.t :=
  {| User.id := User.id u;
     User.email := Storage.set_column (Claims.email claims) (User.email u);
     User.username := User.username u;
     User.password := User.password u;
     User.firstName := Storage.set_column (Claims.first_name claims) (User.firstName u);
     User.lastName := Storage.set_column (Claims.last_name claims) (User.lastName u);
     User.profileImageUrl :=
       Storage.set_column (Claims.profile_image_url claims) (User.profileImageUrl u);
     User.role := User.role u;
     User.organization := User.organization u;
     User.isActive := User.isActive u;
     User.createdAt := User.createdAt u;
     User.updatedAt := Some now |}.

End Vocabulary.

(** * Sample data

    Concrete users, tokens and providers on which the statements below are
    instantiated. *)

Section Samples.
Import AuthSession.

(** A stand-in for the hashing library: the "hash" is the tagged password. *)
Definition sample_bcrypt : Bcrypt :=
  {| bcrypt_hash := fun password _ _ => "$2b$12$" +:+ password;
     bcrypt_compare := fun password hash => bool_decide (hash = "$2b$12$" +:+ password) |}.

(** A local pentester account. *)
Definition alice : User.t :=
  {| User.id := "u-alice";
     User.email := Some "alice@example.com";
     User.username := Some "alice";
     User.password := Some "$2b$12$secret123";
     User.firstName := Some "Alice";
     User.lastName := None;
     User.profileImageUrl := None;
     User.role := pentester;
     User.organization := None;
     User.isActive := Some true;
     User.createdAt := Some 1000;
     User.updatedAt := Some 1000 |}.

(** A local account that has been disabled. *)
Definition bob : User.t :=
  {| User.id := "u-bob";
     User.email := None;
     User.username := Some "bob";
     User.password := Some "$2b$12$hunter2";
     User.firstName := None;
     User.lastName := None;
     User.profileImageUrl := None;
     User.role := client;
     User.organization := None;
     User.isActive := Some false;
     User.createdAt := Some 2000;
     User.updatedAt := Some 2000 |}.

(** A local administrator. *)
Definition root : User.t :=
  {| User.id := "u-root";
     User.email := Some "root@example.com";
     User.username := Some "root";
     User.password := Some "$2b$12$toor";
     User.firstName := None;
     User.lastName := None;
     User.profileImageUrl := None;
     User.role := admin;
     User.organization := None;
     User.isActive := Some true;
     User.createdAt := Some 500;
     User.updatedAt := Some 500 |}.

(** A federated administrator: no username, no hash. *)
Definition dave : User.t :=
  {| User.id := "sub-dave";
     User.email := Some "dave@example.com";
     User.username := None;
     User.password := None;
     User.firstName := Some "Dave";
     User.lastName := Some "Doe";
     User.profileImageUrl := None;
     User.role := admin;
     User.organization := None;
     User.isActive := Some true;
     User.createdAt := Some 3000;
     User.updatedAt := Some 3000 |}.

(** The claims of a later login of [dave]. *)
Definition dave_claims : Claims.t :=
  {| Claims.sub := "sub-dave";
     Claims.email := JsString "dave@corp.example";
     Claims.first_name := JsString "David";
     Claims.last_name := JsUndefined;
     Claims.profile_image_url := JsNull;
     Claims.exp := Some 1700003600 |}.

(** The claims of a subject not seen before. *)
Definition erin_claims : Claims.t :=
  {| Claims.sub := "sub-erin";
     Claims.email := JsString "erin@example.com";
     Claims.first_name := JsString "Erin";
     Claims.last_name := JsString "Roe";
     Claims.profile_image_url := JsUndefined;
     Claims.exp := Some 1700003600 |}.

(** A federated user object expiring at 1700003600. *)
Definition carol : OIDCUser.t :=
  {| OIDCUser.claims := Some erin_claims;
     OIDCUser.access_token := "at-1";
     OIDCUser.refresh_token := Some "rt-1";
     OIDCUser.expires_at := Some 1700003600 |}.

(** The same without a refresh token. *)
Definition carol_without_refresh : OIDCUser.t :=
  {| OIDCUser.claims := Some erin_claims;
     OIDCUser.access_token := "at-1";
     OIDCUser.refresh_token := None;
     OIDCUser.expires_at := Some 1700003600 |}.

(** A provider that cannot be reached. *)
Definition provider_down : Provider :=
  {| discovery := None; refreshTokenGrant := fun _ _ => None |}.

(** The response to a refresh that does not rotate the refresh token. *)
Definition refreshed_tokens : TokenResponse.t :=
  {| TokenResponse.claims :=
       Some {| Claims.sub := "sub-erin";
               Claims.email := JsString "erin@example.com";
               Claims.first_name := JsString "Erin";
               Claims.last_name := JsString "Roe";
               Claims.profile_image_url := JsUndefined;
               Claims.exp := Some 1700007200 |};
     TokenResponse.access_token := "at-2";
     TokenResponse.refresh_token := None |}.

(** A provider that honours the refresh token [rt-1]. *)
Definition provider_up : Provider :=
  {| discovery := Some {| issuer := "https://replit.com/oidc"; client_id := "repl" |};
     refreshTokenGrant := fun _ refreshToken =>
       if bool_decide (refreshToken = "rt-1") then Some refreshed_tokens else None |}.

(** A process that has made no call yet. *)
Definition idle : Net := {| oidc_cache := None; calls := [] |}.

(** An authenticated request carrying the given user object. *)
Definition request_of (p : Principal) : Req := {| isAuthenticated := true; user := Some p |}.

(** A development login asking for the client role. *)
Definition dev_request_client : Routes.DevLoginReq :=
  {| Routes.body_userId := JsUndefined;
     Routes.query_userId := JsUndefined;
     Routes.body_role := JsString "client";
     Routes.query_role := JsUndefined |}.

(** A development login asking for nothing. *)
Definition dev_request_plain : Routes.DevLoginReq :=
  {| Routes.body_userId := JsUndefined;
     Routes.query_userId := JsUndefined;
     Routes.body_role := JsUndefined;
     Routes.query_role := JsUndefined |}.

End Samples.

(** * Vocabulary of the further statements *)

Section VocabularyMore.
Import AuthSession.

(** The e-mail a federated login would store for the subject of [claims]. *)
Definition login_email (db : list User.t) (claims : Claims.t) : option string :=
  match Storage.getUser db (Claims.sub claims) with
  | Some u => Storage.set_column (Claims.email claims) (User.email u)
  | None => Storage.insert_column (Claims.email claims)
  end.

(** The role a federated login leaves the subject of [claims] with. *)
Definition login_role (NODE_ENV hint : option string) (db : list User.t)
    (claims : Claims.t) : Role :=
  match Storage.getUser db (Claims.sub claims) with
  | Some u => User.role u
  | None => ReplitAuth.new_user_role NODE_ENV hint db
  end.

(** The federated user object of [dave]. *)
Definition dave_session : OIDCUser.t :=
  {| OIDCUser.claims := Some dave_claims;
     OIDCUser.access_token := "at-dave";
     OIDCUser.refresh_token := None;
     OIDCUser.expires_at := Some 1700003600 |}.

(** The tokens of a first login of the subject of [erin_claims]. *)
Definition erin_tokens : TokenResponse.t :=
  {| TokenResponse.claims := Some erin_claims;
     TokenResponse.access_token := "at-erin";
     TokenResponse.refresh_token := Some "rt-erin" |}.

(** A refresh response without an id token. *)
Definition bare_tokens : TokenResponse.t :=
  {| TokenResponse.claims := None;
     TokenResponse.access_token := "at-3";
     TokenResponse.refresh_token := None |}.

(** A provider whose refresh responses carry no id token. *)
Definition provider_bare : Provider :=
  {| discovery := Some {| issuer := "https://replit.com/oidc"; client_id := "repl" |};
     refreshTokenGrant := fun _ _ => Some bare_tokens |}.

End VocabularyMore.

(** * Vocabulary of the storage statements *)

Section VocabularyStore.

(** What the statements need of the hashing library: a password matches
    every hash made of it, and a hash is never the empty string. *)
Definition bcrypt_sound `{Bcrypt} : Prop :=
  (forall password cost salt,
     bcrypt_compare password (bcrypt_hash password cost salt) = true) /\
  (forall password cost salt, bcrypt_hash password cost salt <> "").


(** A body for POST /api/admin/create-user. *)
Definition frank_body : Routes.CreateUserBody :=
  {| Routes.cu_username := JsString "frank";
     Routes.cu_password := JsString "tr0ub4dor";
     Routes.cu_email := JsString "frank@example.com";
     Routes.cu_firstName := JsString "Frank";
     Routes.cu_lastName := JsUndefined;
     Routes.cu_role := JsString "pentester" |}.

(** A PUT /api/users/:id body that only changes the role. *)
Definition role_patch (role : string) : UserStore.UserPatch :=
  {| UserStore.p_email := JsUndefined;
     UserStore.p_username := JsUndefined;
     UserStore.p_password := JsUndefined;
     UserStore.p_firstName := JsUndefined;
     UserStore.p_lastName := JsUndefined;
     UserStore.p_profileImageUrl := JsUndefined;
     UserStore.p_role := JsString role;
     UserStore.p_organization := JsUndefined;
     UserStore.p_isActive := UserStore.JbUndefined |}.

(** A browser. *)
Definition some_client : UserRoutes.Client :=
  {| UserRoutes.ip := Some "203.0.113.7"; UserRoutes.user_agent := Some "curl/8.5" |}.

End VocabularyStore.

(** * Further sample data *)

Section SamplesMore.
Import AuthSession.

(** The claims inside [refreshed_tokens]. *)
Definition refreshed_claims : Claims.t :=
  {| Claims.sub := "sub-erin";
     Claims.email := JsString "erin@example.com";
     Claims.first_name := JsString "Erin";
     Claims.last_name := JsString "Roe";
     Claims.profile_image_url := JsUndefined;
     Claims.exp := Some 1700007200 |}.

(** No row of another table refers to any user. *)
Definition unreferenced : string -> bool := fun _ => false.

End SamplesMore.

(** * Vocabulary of the project statements *)

Section VocabularyProjects.
Import ProjectStore.

(** [result[severity]]. *)
Definition get_count (result : SeverityCounts) (s : Severity) : nat :=
  match s with
  | critical => n_critical result
  | high => n_high result
  | medium => n_medium result
  | low => n_low result
  | informational => n_informational result
  end.

(** The number of findings of a severity. *)
Definition findings_of (vs : list Vulnerability.t) (s : Severity) : nat :=
  length (filter (fun v => Vulnerability.severity v = s) vs).

(** A finding of the given severity in project [p-1]. *)
Definition finding (id : string) (s : Severity) : Vulnerability.t :=
  {| Vulnerability.id := id;
     Vulnerability.projectId := "p-1";
     Vulnerability.pentesterId := "u-alice";
     Vulnerability.title := "Finding";
     Vulnerability.description := None;
     Vulnerability.severity := s;
     Vulnerability.cvssScore := None;
     Vulnerability.impact := None;
     Vulnerability.proofOfConcept := None;
     Vulnerability.recommendation := None;
     Vulnerability.status := Some open;
     Vulnerability.discoveredAt := Some 100;
     Vulnerability.resolvedAt := None;
     Vulnerability.createdAt := Some 100;
     Vulnerability.updatedAt := Some 100 |}.

(** A project of client [bob]. *)
Definition project_one : Project.t :=
  {| Project.id := "p-1";
     Project.name := "Web shop";
     Project.description := None;
     Project.type := "Web Application";
     Project.clientId := "u-bob";
     Project.status := Some active;
     Project.startDate := None;
     Project.endDate := None;
     Project.progress := Some 40;
     Project.createdAt := Some 50;
     Project.updatedAt := Some 50 |}.

(** An earlier report on [project_one], still marked latest. *)
Definition old_report : Report.t :=
  {| Report.id := "r-1";
     Report.projectId := "p-1";
     Report.pentesterId := "u-alice";
     Report.filename := "report-1.pdf";
     Report.originalName := "first.pdf";
     Report.fileSize := 1024;
     Report.mimeType := "application/pdf";
     Report.version := Some 1;
     Report.isLatest := Some true;
     Report.uploadedAt := Some 200 |}.

(** The upload of a second report on [project_one], as the route builds it. *)
Definition new_upload : InsertReport.t :=
  {| InsertReport.projectId := "p-1";
     InsertReport.pentesterId := "u-alice";
     InsertReport.filename := "report-2.pdf";
     InsertReport.originalName := "second.pdf";
     InsertReport.fileSize := 2048;
     InsertReport.mimeType := "application/pdf";
     InsertReport.version := JnNum 1;
     InsertReport.isLatest := UserStore.JbBool true |}.

(** A totals row on [project_one]. *)
Definition totals_one : VulnerabilityTotals.t :=
  {| VulnerabilityTotals.id := "t-1";
     VulnerabilityTotals.projectId := "p-1";
     VulnerabilityTotals.pentesterId := "u-alice";
     VulnerabilityTotals.totalVulnerabilities := Some 3;
     VulnerabilityTotals.totalHigh := Some 1;
     VulnerabilityTotals.totalMedium := Some 1;
     VulnerabilityTotals.totalLow := Some 1;
     VulnerabilityTotals.createdAt := Some 300;
     VulnerabilityTotals.updatedAt := Some 300 |}.

(** Tables with one project, three findings, one report and no totals. *)
Definition sample_tables : Tables :=
  {| users := [root; alice; bob];
     projects := [project_one];
     projectAssignments :=
       [ {| ProjectAssignment.id := "a-1"; ProjectAssignment.projectId := "p-1";
            ProjectAssignment.pentesterId := "u-alice";
            ProjectAssignment.assignedAt := Some 60 |} ];
     vulnerabilities := [finding "v-1" high; finding "v-2" low; finding "v-3" high];
     vulnerabilityTotals := [];
     reports := [old_report] |}.

(** The same with a totals row on the project. *)
Definition sample_tables_with_totals : Tables :=
  {| users := users sample_tables;
     projects := projects sample_tables;
     projectAssignments := projectAssignments sample_tables;
     vulnerabilities := vulnerabilities sample_tables;
     vulnerabilityTotals := [totals_one];
     reports := reports sample_tables |}.

End VocabularyProjects.

(** * Vocabulary of the session statements *)

Section VocabularySessions.

(** No two stored users share a username. *)
Definition usernames_unique (db : list User.t) : Prop :=
  forall u v n, u ∈ db -> v ∈ db ->
                User.username u = Some n -> User.username v = Some n -> User.id u = User.id v.

End VocabularySessions.

(** * Properties *)

(** ** Storage lemmas *)

Section StorageFacts.
Implicit Types (db : list User.t) (u : User.t) (k : string).

Lemma getUser_id db k u : Storage.getUser db k = Some u -> User.id u = k.
Proof.
  unfold Storage.getUser. intros Hh.
  apply head_Some_elem_of in Hh. by apply list_elem_of_filter in Hh as [? _].
Qed.

Lemma getUser_cons db k u :
  Storage.getUser (u :: db) k =
    if bool_decide (User.id u = k) then Some u else Storage.getUser db k.
Proof.
  unfold Storage.getUser. rewrite filter_cons.
  case_bool_decide; destruct (decide _); done.
Qed.

(** Rewriting rows without touching their key commutes with the lookup. *)
Lemma getUser_map (f : User.t -> User.t) db k :
  (forall r, User.id (f r) = User.id r) ->
  Storage.getUser (map f db) k = f <$> Storage.getUser db k.
Proof.
  intros Hf. induction db as [|r db IH]; [done|].
  cbn [map]. rewrite !getUser_cons, Hf. by case_bool_decide.
Qed.

Lemma getUser_app_new db k u :
  Storage.getUser db k = None -> User.id u = k ->
  Storage.getUser (db ++ [u]) k = Some u.
Proof.
  intros Hn Hu. induction db as [|r db IH]; cbn [app].
  - rewrite getUser_cons. by rewrite bool_decide_eq_true_2.
  - rewrite getUser_cons in Hn |- *. case_bool_decide; [done|]. by apply IH.
Qed.

Lemma getUser_app_old db k u :
  User.id u <> k -> Storage.getUser (db ++ [u]) k = Storage.getUser db k.
Proof.
  intros Hu. induction db as [|r db IH]; cbn [app]; rewrite !getUser_cons.
  - by rewrite bool_decide_eq_false_2.
  - by rewrite IH.
Qed.

Lemma getUsersByRole_app db1 db2 r :
  Storage.getUsersByRole (db1 ++ db2) r =
    Storage.getUsersByRole db1 r ++ Storage.getUsersByRole db2 r.
Proof. apply filter_app. Qed.

(** A stored user of a role is listed under that role. *)
Lemma getUsersByRole_stored db k u :
  Storage.getUser db k = Some u -> u ∈ Storage.getUsersByRole db (User.role u).
Proof.
  unfold Storage.getUser, Storage.getUsersByRole. intros Hh.
  apply head_Some_elem_of, list_elem_of_filter in Hh as [_ Hin].
  by apply list_elem_of_filter.
Qed.

End StorageFacts.

(** ** The session codec *)

Section Codec.
Import AuthSession.

Lemma truthy_string_true s : s <> "" -> truthy_string s = true.
Proof. intros. unfold truthy_string. by rewrite bool_decide_eq_false_2. Qed.

Lemma truthy_string_inv s : truthy_string s = true -> s <> "".
Proof. unfold truthy_string. by case_bool_decide. Qed.

Lemma serialize_oidc o :
  is_Some (OIDCUser.claims o) -> OIDCUser.access_token o <> "" ->
  serializeUser (POidc o) =
    Ok (SessOidc {| OIDCSessionData.claims := OIDCUser.claims o;
                    OIDCSessionData.access_token := OIDCUser.access_token o;
                    OIDCSessionData.refresh_token := OIDCUser.refresh_token o;
                    OIDCSessionData.expires_at := OIDCUser.expires_at o |}).
Proof.
  intros Hc Ha. unfold serializeUser, has_oidc_shape.
  by rewrite bool_decide_eq_true_2, truthy_string_true.
Qed.

Lemma serialize_local u :
  User.id u <> "" -> serializeUser (PLocal u) = Ok (SessLocal (User.id u)).
Proof. intros Hid. unfold serializeUser. by rewrite truthy_string_true. Qed.

(** C4: for every principal the local validator or the federated verifier
    produces, [deserialize (serialize p)] succeeds and gives back a
    principal of the same variant with the same identity ([claims.sub],
    respectively the user id); the federated one is given back whole. *)
Theorem session_roundtrip (db : list User.t) (p : Principal) :
  producible db p ->
  exists p', roundtrip db p = Ok p' /\ identity p' = identity p /\
    match p with
    | POidc _ => p' = p
    | PLocal u => exists u', p' = PLocal u' /\ Storage.getUser db (User.id u) = Some u'
    end.
Proof.
  destruct p as [o|u]; cbn [producible]; intros [H1 H2]; unfold roundtrip.
  - rewrite serialize_oidc by done. cbn [deserializeUser].
    exists (POidc o). by destruct o.
  - rewrite serialize_local by done. cbn [deserializeUser].
    destruct H2 as [u' Hu']. rewrite Hu'. exists (PLocal u').
    split; [done|]. split; [|by exists u'].
    cbn [identity]. by apply getUser_id in Hu'.
Qed.

End Codec.

(** ** The access gate and token refresh *)

Section Gate.
Import AuthSession.
Implicit Types (P : Provider) (req : Req) (o : OIDCUser.t) (st : Net).

(** C7: while [now <= expires_at], at clock readings past the first second
    of the epoch, the gate passes a federated principal on without touching
    it and without any network call, however many times in succession it
    runs; each single run behaves the same. *)
Theorem fresh_gate_noop P req o (e : Z) (clock : list Z) st :
  isAuthenticated req = true ->
  user req = Some (POidc o) ->
  federated o ->
  OIDCUser.expires_at o = Some e ->
  Forall (fun now_ms => 0 < now_ms / 1000 <= e) clock ->
  run_gate P clock req st = ((Next, req), st) /\
  calls (snd (run_gate P clock req st)) = calls st /\
  Forall (fun now_ms => unifiedIsAuthenticated P now_ms req st = ((Next, req), st)) clock.
Proof.
  intros Hauth Hu Hf He Hclock.
  assert (Hone : forall now_ms, 0 < now_ms / 1000 <= e ->
                   unifiedIsAuthenticated P now_ms req st = ((Next, req), st)).
  { intros now_ms [Hpos Hle]. unfold unifiedIsAuthenticated.
    rewrite Hauth, Hu. unfold federated in Hf. rewrite Hf, He.
    destruct (Z.eqb_spec e 0) as [->|_]; [lia|].
    destruct (Z.leb_spec (now_ms / 1000) e); [done | lia]. }
  assert (Hrun : run_gate P clock req st = ((Next, req), st)).
  { induction Hclock as [|now_ms clock Hnow _ IH]; [done|].
    cbn [run_gate]. unfold bind. by rewrite (Hone _ Hnow). }
  split; [done|]. split; [by rewrite Hrun|].
  eapply Forall_impl; [exact Hclock|]. exact Hone.
Qed.

(** C6: an expired federated principal without a refresh token is answered
    401 and no network call is made (the process state, with its log of
    calls, is returned as it was). *)
Theorem expired_without_refresh_token P (now_ms : Z) req o (e : Z) st :
  user req = Some (POidc o) ->
  federated o ->
  OIDCUser.expires_at o = Some e ->
  e < now_ms / 1000 ->
  OIDCUser.refresh_token o = None ->
  unifiedIsAuthenticated P now_ms req st =
    ((Reply {| status := 401; body := message_body "Unauthorized" |}, req), st) /\
  calls (snd (unifiedIsAuthenticated P now_ms req st)) = calls st.
Proof.
  intros Hu Hf He Hexp Hrt.
  enough (unifiedIsAuthenticated P now_ms req st =
            ((Reply {| status := 401; body := message_body "Unauthorized" |}, req), st))
    as -> by done.
  unfold unifiedIsAuthenticated. rewrite Hu.
  destruct (isAuthenticated req); [|done].
  unfold federated in Hf. rewrite Hf, He, Hrt.
  destruct (Z.eqb_spec e 0); [done|].
  destruct (Z.leb_spec (now_ms / 1000) e); [lia | done].
Qed.

(** C5: when the refresh exchange of an expired federated principal fails,
    the request is answered 401 ("Session expired" whenever the expiry is
    a non-zero instant) and the user object is exactly as before. *)
Theorem refresh_failure_keeps_principal P (now_ms : Z) req o (e : Z) (rt : string) st :
  isAuthenticated req = true ->
  user req = Some (POidc o) ->
  federated o ->
  OIDCUser.expires_at o = Some e ->
  e < now_ms / 1000 ->
  OIDCUser.refresh_token o = Some rt ->
  rt <> "" ->
  fst (refresh_exchange P now_ms rt st) = None ->
  exists msg st',
    unifiedIsAuthenticated P now_ms req st =
      ((Reply {| status := 401; body := message_body msg |}, req), st') /\
    (e <> 0 -> msg = "Session expired").
Proof.
  intros Hauth Hu Hf He Hexp Hrt Hne Hfail.
  unfold unifiedIsAuthenticated. rewrite Hauth, Hu.
  unfold federated in Hf. rewrite Hf, He, Hrt.
  destruct (Z.eqb_spec e 0) as [->|Hnz].
  { exists "Unauthorized", st. by split. }
  destruct (Z.leb_spec (now_ms / 1000) e); [lia|].
  rewrite truthy_string_true by done. unfold bind.
  destruct (refresh_exchange P now_ms rt st) as [r st'] eqn:Hex.
  cbn [fst] in Hfail. subst r. by exists "Session expired", st'.
Qed.

(** C8: a successful refresh replaces [claims], [access_token] and
    [expires_at] by the response's values, and [refresh_token] exactly when
    the response carries a (non-empty) one, keeping the stored one
    otherwise; the gate installs that object and passes the request on. *)
Theorem refresh_success_overwrites P (now_ms : Z) req o (e : Z) (rt : string)
    (tr : TokenResponse.t) st :
  isAuthenticated req = true ->
  user req = Some (POidc o) ->
  federated o ->
  OIDCUser.expires_at o = Some e ->
  e <> 0 ->
  e < now_ms / 1000 ->
  OIDCUser.refresh_token o = Some rt ->
  rt <> "" ->
  fst (refresh_exchange P now_ms rt st) = Some tr ->
  let o' := updateUserSession o tr in
  fst (unifiedIsAuthenticated P now_ms req st) =
    (Next, {| isAuthenticated := true; user := Some (POidc o') |}) /\
  OIDCUser.claims o' = TokenResponse.claims tr /\
  OIDCUser.access_token o' = TokenResponse.access_token tr /\
  OIDCUser.expires_at o' = (TokenResponse.claims tr ≫= Claims.exp) /\
  OIDCUser.refresh_token o' =
    (if truthy_opt (TokenResponse.refresh_token tr)
     then TokenResponse.refresh_token tr else Some rt).
Proof.
  intros Hauth Hu Hf He Hnz Hexp Hrt Hne Hok o'.
  split; [|subst o'; cbn; by rewrite Hrt].
  unfold unifiedIsAuthenticated. rewrite Hauth, Hu.
  unfold federated in Hf. rewrite Hf, He, Hrt.
  destruct (Z.eqb_spec e 0); [done|].
  destruct (Z.leb_spec (now_ms / 1000) e); [lia|].
  rewrite truthy_string_true by done. unfold bind.
  destruct (refresh_exchange P now_ms rt st) as [r st'] eqn:Hex.
  cbn [fst] in Hok. by subst r.
Qed.

End Gate.

(** ** Role assignment at login *)

Section Roles.
Import AuthSession.
Implicit Types (db : list User.t) (claims : Claims.t) (hint NODE_ENV : option string).

Lemma upsert_known NODE_ENV now claims hint db u :
  Storage.getUser db (Claims.sub claims) = Some u ->
  ReplitAuth.upsertUser NODE_ENV now claims hint db =
    if Storage.email_taken db (Claims.sub claims)
         (Storage.set_column (Claims.email claims) (User.email u))
    then Err (Storage.UniqueViolation "users_email_unique")
    else Ok (map (fun r => if bool_decide (User.id r = Claims.sub claims)
                           then Storage.updated_row now
                                  (ReplitAuth.profile_of_claims claims (User.role u)) r
                           else r) db).
Proof.
  intros Hu. unfold ReplitAuth.upsertUser, Storage.upsertUser.
  cbn [ReplitAuth.profile_of_claims UpsertUser.id]. rewrite Hu.
  cbn [Storage.updated_row User.email UpsertUser.email ReplitAuth.profile_of_claims].
  by destruct (Storage.email_taken _ _ _).
Qed.

Lemma upsert_unknown NODE_ENV now claims hint db :
  Storage.getUser db (Claims.sub claims) = None ->
  ReplitAuth.upsertUser NODE_ENV now claims hint db =
    if Storage.email_taken db (Claims.sub claims)
         (Storage.insert_column (Claims.email claims))
    then Err (Storage.UniqueViolation "users_email_unique")
    else Ok (db ++ [Storage.inserted_row now
                      (ReplitAuth.profile_of_claims claims
                         (ReplitAuth.new_user_role NODE_ENV hint db))]).
Proof.
  intros Hu. unfold ReplitAuth.upsertUser, Storage.upsertUser.
  cbn [ReplitAuth.profile_of_claims UpsertUser.id]. rewrite Hu.
  cbn [Storage.inserted_row User.email UpsertUser.email ReplitAuth.profile_of_claims].
  by destruct (Storage.email_taken _ _ _).
Qed.

(** C2: a federated login of a known subject succeeds whenever the new
    e-mail is not another user's; whenever it succeeds the stored row is
    the old one with only e-mail, first and last name and profile image
    taken from the claims (and the modification stamp set), the role is
    the one stored before, and no other user's row changes; the outcome
    does not depend on the hint or the deployment mode. *)
Theorem relogin_keeps_role NODE_ENV (now : Z) claims hint db (u : User.t) :
  Storage.getUser db (Claims.sub claims) = Some u ->
  (Storage.email_taken db (Claims.sub claims)
     (User.email (refreshed_profile now claims u)) = false ->
   exists db', ReplitAuth.upsertUser NODE_ENV now claims hint db = Ok db') /\
  (forall db', ReplitAuth.upsertUser NODE_ENV now claims hint db = Ok db' ->
     Storage.getUser db' (Claims.sub claims) = Some (refreshed_profile now claims u) /\
     User.role <$> Storage.getUser db' (Claims.sub claims) = Some (User.role u) /\
     forall k, k <> Claims.sub claims -> Storage.getUser db' k = Storage.getUser db k) /\
  (forall NODE_ENV' hint',
     ReplitAuth.upsertUser NODE_ENV' now claims hint' db =
       ReplitAuth.upsertUser NODE_ENV now claims hint db).
Proof.
  intros Hu.
  cut (forall A B C : Prop, (A /\ B) -> C -> A /\ B /\ C); [|tauto].
  intros Hcut; apply Hcut; clear Hcut;
    [|intros; by rewrite !(upsert_known _ _ _ _ _ _ Hu)].
  rewrite (upsert_known _ _ _ _ _ _ Hu).
  cbn [refreshed_profile User.email].
  destruct (Storage.email_taken _ _ _); split; try done; [by eexists|].
  intros db' [= <-].
  set (f := fun r : User.t => if bool_decide _ then _ else r).
  assert (Hf : forall r, User.id (f r) = User.id r).
  { intros r. unfold f. by case_bool_decide. }
  assert (Hrow : Storage.getUser (map f db) (Claims.sub claims)
                 = Some (refreshed_profile now claims u)).
  { rewrite getUser_map, Hu by done. cbn. f_equal.
    pose proof (getUser_id _ _ _ Hu) as Hid. unfold f.
    rewrite bool_decide_eq_true_2 by done.
    unfold Storage.updated_row, refreshed_profile. cbn. by rewrite Hid. }
  split; [done|]. split; [by rewrite Hrow|].
  intros k Hk. rewrite getUser_map by done.
  destruct (Storage.getUser db k) as [r|] eqn:Hr; [|done]. cbn. f_equal.
  pose proof (getUser_id _ _ _ Hr). unfold f.
  rewrite bool_decide_eq_false_2; [done | congruence].
Qed.

Lemma dev_create r now db :
  Storage.getUser db (Routes.dev_userId r) = None ->
  Storage.email_taken db (Routes.dev_userId r)
    (Some (Routes.dev_userId r +:+ "@dev.local")) = false ->
  exists row,
    Routes.dev_find_or_create now r db = Ok (db ++ [row], row) /\
    User.id row = Routes.dev_userId r /\
    User.role row = Routes.dev_user_role r db.
Proof.
  intros Hu He. unfold Routes.dev_find_or_create, Storage.upsertUser.
  cbn [UpsertUser.id]. rewrite Hu.
  cbn [Storage.inserted_row User.email UpsertUser.email Storage.insert_column].
  rewrite He. by eexists.
Qed.

(** C3, as the code has it: a federated login of an unknown subject whose
    e-mail is free creates the user, with role admin when no admin exists
    (whatever the hint; an admin exists from then on) and with role client
    when an admin exists and no hint is given.  The development login
    creates an unknown user with the requested role when the request names
    one, and otherwise with role admin when no admin exists and client
    when one does. *)
Theorem new_user_role_rule NODE_ENV (now : Z) claims hint (r : Routes.DevLoginReq) db :
  (Storage.getUser db (Claims.sub claims) = None ->
   Storage.email_taken db (Claims.sub claims)
     (Storage.insert_column (Claims.email claims)) = false ->
   exists db' u,
     ReplitAuth.upsertUser NODE_ENV now claims hint db = Ok db' /\
     Storage.getUser db' (Claims.sub claims) = Some u /\
     (Storage.getUsersByRole db admin = [] ->
        User.role u = admin /\ Storage.getUsersByRole db' admin <> []) /\
     (Storage.getUsersByRole db admin <> [] -> hint = None -> User.role u = client)) /\
  (Storage.getUser db (Routes.dev_userId r) = None ->
   Storage.email_taken db (Routes.dev_userId r)
     (Some (Routes.dev_userId r +:+ "@dev.local")) = false ->
   exists resp db' sess u,
     Routes.handleDevLogin now r db = (resp, db', sess) /\
     Storage.getUser db' (Routes.dev_userId r) = Some u /\
     (forall role, Routes.dev_requested_role r = Some role -> User.role u = role) /\
     (Routes.dev_requested_role r = None ->
        Storage.getUsersByRole db admin = [] -> User.role u = admin) /\
     (Routes.dev_requested_role r = None ->
        Storage.getUsersByRole db admin <> [] -> User.role u = client)).
Proof.
  split.
  - intros Hu He. rewrite (upsert_unknown _ _ _ _ _ Hu), He.
    eexists _, _. split; [done|]. split; [by apply getUser_app_new|].
    cbn [Storage.inserted_row ReplitAuth.profile_of_claims User.role UpsertUser.role].
    unfold ReplitAuth.new_user_role. split.
    + intros Hnone. rewrite Hnone. split; [done|].
      rewrite getUsersByRole_app. unfold Storage.getUsersByRole at 2.
      rewrite filter_cons_True by done. by destruct (Storage.getUsersByRole db admin).
    + intros Hsome ->. rewrite bool_decide_eq_false_2; [done|].
      by destruct (Storage.getUsersByRole db admin).
  - intros Hu He. destruct (dev_create r now db Hu He) as (row & Hc & Hid & Hrole).
    unfold Routes.handleDevLogin. rewrite Hc.
    destruct (Routes.req_login (PLocal row)); eexists _, _, _, row;
      (split; [done|]); (split; [by apply getUser_app_new|]);
      rewrite Hrole; unfold Routes.dev_user_role.
    all: repeat split.
    all: try (intros role ->; done).
    all: try (intros -> ->; done).
    all: intros -> Hsome; rewrite bool_decide_eq_false_2; [done|];
      by destruct (Storage.getUsersByRole db admin).
Qed.

End Roles.

(** ** Local credentials *)

Section LocalLogin.
Context `{Bcrypt}.
Implicit Types (db : list User.t) (u : User.t).

(** C9: the validator returns the user the name resolves to when the
    password validates and the account is active; an unknown name and a
    wrong password are refused with one and the same message; a disabled
    account with the right password is refused with another message. *)
Theorem credential_validator db (username password : string) :
  (forall u, Storage.getUserByUsername db username = Some u ->
             Storage.validatePassword u password = true ->
             User.isActive u = Some true ->
             LocalAuth.verify db username password = LocalAuth.Authenticated u) /\
  (Storage.getUserByUsername db username = None ->
     LocalAuth.verify db username password =
       LocalAuth.Refused "Invalid username or password") /\
  (forall u, Storage.getUserByUsername db username = Some u ->
             Storage.validatePassword u password = false ->
             LocalAuth.verify db username password =
               LocalAuth.Refused "Invalid username or password") /\
  (forall u, Storage.getUserByUsername db username = Some u ->
             Storage.validatePassword u password = true ->
             User.isActive u = Some false ->
             LocalAuth.verify db username password =
               LocalAuth.Refused "Account is disabled") /\
  LocalAuth.Refused "Account is disabled" <>
    LocalAuth.Refused "Invalid username or password".
Proof.
  unfold LocalAuth.verify. repeat split.
  - intros u -> -> ->. done.
  - intros ->. done.
  - intros u -> ->. done.
  - intros u -> -> ->. done.
  - discriminate.
Qed.

Lemma verify_authenticated db username password u :
  LocalAuth.verify db username password = LocalAuth.Authenticated u ->
  Storage.getUserByUsername db username = Some u /\
  Storage.validatePassword u password = true /\
  User.isActive u = Some true.
Proof.
  unfold LocalAuth.verify.
  destruct (Storage.getUserByUsername db username) as [u0|]; [|done].
  destruct (Storage.validatePassword u0 password) eqn:Hv; [|done]. cbn.
  destruct (User.isActive u0) as [[]|] eqn:Ha; try done.
  by intros [= <-].
Qed.

Lemma authenticate_authenticated db (username password : jsval) u :
  LocalAuth.authenticate db username password = LocalAuth.Authenticated u ->
  exists n p, username = JsString n /\ password = JsString p /\
              LocalAuth.verify db n p = LocalAuth.Authenticated u.
Proof.
  unfold LocalAuth.authenticate.
  destruct username as [| |n]; try done. destruct password as [| |p]; try done.
  destruct (truthy_string n && truthy_string p); [|done]. eauto.
Qed.

(** C10: an account without a stored hash validates no password, is never
    the user the validator or the local strategy authenticates, and a
    local login naming it is answered 401 without a session. *)
Theorem hashless_account_cannot_login u :
  User.password u = None ->
  (forall password, Storage.validatePassword u password = false) /\
  (forall db username password,
     LocalAuth.verify db username password <> LocalAuth.Authenticated u) /\
  (forall db (username password : jsval),
     LocalAuth.authenticate db username password <> LocalAuth.Authenticated u) /\
  (forall db (username password : string),
     Storage.getUserByUsername db username = Some u ->
     exists msg,
       Routes.local_login db (JsString username) (JsString password) =
         ({| status := 401; body := message_body msg |}, None)).
Proof.
  intros Hp.
  assert (Hv : forall password, Storage.validatePassword u password = false).
  { intros password. unfold Storage.validatePassword. by rewrite Hp. }
  assert (Hverify : forall db username password,
            LocalAuth.verify db username password <> LocalAuth.Authenticated u).
  { intros db username password Hok.
    apply verify_authenticated in Hok as (_ & Hval & _). by rewrite Hv in Hval. }
  repeat split; [done..| |].
  - intros db username password Hok.
    apply authenticate_authenticated in Hok as (n & p & _ & _ & Hok).
    by apply Hverify in Hok.
  - intros db username password Hu.
    unfold Routes.local_login, LocalAuth.authenticate.
    destruct (truthy_string username && truthy_string password);
      [|by eexists].
    unfold LocalAuth.verify. rewrite Hu, Hv. cbn. by eexists.
Qed.

(** ** What the auth routes send *)

Lemma has_key_opt_string k o : has_key k (json_opt_string o) = false.
Proof. by destruct o. Qed.

Lemma has_key_opt_bool k o : has_key k (json_opt_bool o) = false.
Proof. by destruct o. Qed.

Lemma has_key_opt_date k o : has_key k (json_opt_date o) = false.
Proof. by destruct o. Qed.

Lemma has_key_message k msg : k <> "message" -> has_key k (message_body msg) = false.
Proof.
  intros Hk. cbn. rewrite bool_decide_eq_false_2; [done | congruence].
Qed.

(** The 200 body of POST /api/local-login, like every other body of that
    route, has no [password] property. *)
Lemma local_login_hides_password db (username password : jsval) :
  has_key "password" (body (fst (Routes.local_login db username password))) = false.
Proof.
  unfold Routes.local_login.
  destruct (LocalAuth.authenticate db username password) as [u|msg].
  - destruct (Routes.req_login _); cbn [fst body Routes.reply];
      [|by apply has_key_message].
    cbn. by rewrite !has_key_opt_string.
  - cbn [fst body Routes.reply]. by apply has_key_message.
Qed.

Lemma userWithoutPassword_fields u :
  Routes.userWithoutPassword u =
    JObj [ ("id", JStr (User.id u));
           ("email", json_opt_string (User.email u));
           ("username", json_opt_string (User.username u));
           ("firstName", json_opt_string (User.firstName u));
           ("lastName", json_opt_string (User.lastName u));
           ("profileImageUrl", json_opt_string (User.profileImageUrl u));
           ("role", JStr (role_name (User.role u)));
           ("organization", json_opt_string (User.organization u));
           ("isActive", json_opt_bool (User.isActive u));
           ("createdAt", json_opt_date (User.createdAt u));
           ("updatedAt", json_opt_date (User.updatedAt u)) ].
Proof. reflexivity. Qed.

Lemma userWithoutPassword_hides_password u :
  has_key "password" (Routes.userWithoutPassword u) = false.
Proof.
  rewrite userWithoutPassword_fields. cbn.
  by rewrite !has_key_opt_string, has_key_opt_bool, !has_key_opt_date.
Qed.

(** No body of the POST /api/admin/create-user handler has a [password]
    property: the row of the created user is sent without it. *)
Lemma create_user_hides_password (now : Z) (uuid salt : string) db
    (b : Routes.CreateUserBody) (req : AuthSession.Req) :
  has_key "password"
    (body (fst (Routes.create_user_handler now uuid salt db b req))) = false.
Proof.
  unfold Routes.create_user_handler, Routes.access_denied.
  repeat (first [ done
                | progress cbn [fst body Routes.reply]
                | apply has_key_message; done
                | match goal with
                  | |- context [match ?x with _ => _ end] => destruct x
                  end ]).
  cbn -[Routes.userWithoutPassword].
  by rewrite userWithoutPassword_hides_password.
Qed.

End LocalLogin.

(** ** The stored hash in responses *)

Section Exposure.
Import AuthSession.

(** GET /api/auth/user answers a local session with the whole stored row,
    its [password] column included. *)
Lemma auth_user_sends_row P (now_ms : Z) (db : list User.t) (req : Req) (u u' : User.t) st :
  isAuthenticated req = true ->
  user req = Some (PLocal u) ->
  User.id u <> "" ->
  Storage.getUser db (User.id u) = Some u' ->
  Routes.get_auth_user P now_ms db req st =
    ({| status := 200; body := User.to_json u' |}, st) /\
  get_key "password" (User.to_json u') = Some (json_opt_string (User.password u')).
Proof.
  intros Hauth Hu Hid Hrow. split; [|done].
  unfold Routes.get_auth_user, Routes.guarded, bind, unifiedIsAuthenticated.
  rewrite Hauth, Hu, truthy_string_true by done. cbn [ret].
  unfold Routes.auth_user_handler. rewrite Hu. cbn. by rewrite Hrow.
Qed.

(** C1: the hash does leave through two of the four routes.  With [alice]
    logged in locally, GET /api/auth/user answers 200 with her row and its
    [password] property holds her stored hash; with [root] logged in,
    GET /api/users answers 200 with the rows of [root] and [alice], hashes
    included. *)
Theorem stored_hash_is_sent :
  Routes.local_login (H := sample_bcrypt) [root; alice]
      (JsString "alice") (JsString "secret123")
    = ({| status := 200;
          body := JObj [("message", JStr "Login successful");
                        ("user", JObj [("id", JStr "u-alice");
                                       ("username", JStr "alice");
                                       ("role", JStr "pentester");
                                       ("firstName", JStr "Alice");
                                       ("lastName", JNull)])] |},
       Some (SessLocal "u-alice")) /\
  deserializeUser [root; alice] (SessLocal "u-alice") = Ok (PLocal alice) /\
  fst (Routes.get_auth_user provider_down 5000 [root; alice] (request_of (PLocal alice)) idle)
    = {| status := 200; body := User.to_json alice |} /\
  get_key "password" (User.to_json alice) = Some (JStr "$2b$12$secret123") /\
  fst (Routes.get_users provider_down 5000 [root; alice] JsUndefined
         (request_of (PLocal root)) idle)
    = {| status := 200; body := JArr [User.to_json root; User.to_json alice] |} /\
  has_key "password" (JArr [User.to_json root; User.to_json alice]) = true.
Proof. repeat split; vm_compute; reflexivity. Qed.

End Exposure.

(** ** Instances on the sample data *)

Section Instances.
Import AuthSession.

Lemma session_roundtrip_witness :
  producible [root; alice] (PLocal alice) /\
  exists p', roundtrip [root; alice] (PLocal alice) = Ok p' /\
    identity p' = identity (PLocal alice) /\
    exists u', p' = PLocal u' /\ Storage.getUser [root; alice] (User.id alice) = Some u'.
Proof.
  assert (Hp : producible [root; alice] (PLocal alice)).
  { split; [done|]. by exists alice. }
  split; [exact Hp|]. exact (session_roundtrip [root; alice] (PLocal alice) Hp).
Defined.

Lemma fresh_gate_noop_witness :
  let clock := [1700000000000; 1700000000000; 1700003600999] in
  run_gate provider_up clock (request_of (POidc carol)) idle
    = ((Next, request_of (POidc carol)), idle) /\
  calls (snd (run_gate provider_up clock (request_of (POidc carol)) idle)) = calls idle /\
  Forall (fun now_ms =>
            unifiedIsAuthenticated provider_up now_ms (request_of (POidc carol)) idle
              = ((Next, request_of (POidc carol)), idle)) clock.
Proof.
  apply (fresh_gate_noop provider_up (request_of (POidc carol)) carol 1700003600);
    [reflexivity | reflexivity | reflexivity | reflexivity |].
  repeat constructor; vm_compute; congruence.
Defined.

Lemma expired_without_refresh_token_witness :
  unifiedIsAuthenticated provider_up 1700003601000
      (request_of (POidc carol_without_refresh)) idle
    = ((Reply {| status := 401; body := message_body "Unauthorized" |},
        request_of (POidc carol_without_refresh)), idle) /\
  calls (snd (unifiedIsAuthenticated provider_up 1700003601000
                (request_of (POidc carol_without_refresh)) idle)) = calls idle.
Proof.
  apply (expired_without_refresh_token provider_up 1700003601000
           (request_of (POidc carol_without_refresh)) carol_without_refresh 1700003600);
    reflexivity.
Defined.

Lemma refresh_failure_keeps_principal_witness :
  fst (refresh_exchange provider_down 1700003601000 "rt-1" idle) = None /\
  exists msg st',
    unifiedIsAuthenticated provider_down 1700003601000 (request_of (POidc carol)) idle
      = ((Reply {| status := 401; body := message_body msg |}, request_of (POidc carol)), st') /\
    (1700003600 <> 0 -> msg = "Session expired").
Proof.
  split; [reflexivity|].
  apply (refresh_failure_keeps_principal provider_down 1700003601000
           (request_of (POidc carol)) carol 1700003600 "rt-1" idle);
    try reflexivity; discriminate.
Defined.

Lemma refresh_success_overwrites_witness :
  fst (refresh_exchange provider_up 1700003601000 "rt-1" idle) = Some refreshed_tokens /\
  fst (unifiedIsAuthenticated provider_up 1700003601000 (request_of (POidc carol)) idle)
    = (Next, request_of (POidc (updateUserSession carol refreshed_tokens))) /\
  OIDCUser.refresh_token (updateUserSession carol refreshed_tokens) = Some "rt-1".
Proof.
  split; [reflexivity|].
  destruct (refresh_success_overwrites provider_up 1700003601000
              (request_of (POidc carol)) carol 1700003600 "rt-1" refreshed_tokens idle)
    as (Hgate & _ & _ & _ & Hrt); try reflexivity; try discriminate.
  split; [exact Hgate | exact Hrt].
Defined.

Lemma relogin_keeps_role_witness :
  Storage.getUser [dave; alice] (Claims.sub dave_claims) = Some dave /\
  exists db',
    ReplitAuth.upsertUser (Some "development") 9000 dave_claims (Some "client") [dave; alice]
      = Ok db' /\
    User.role <$> Storage.getUser db' "sub-dave" = Some admin.
Proof.
  split; [reflexivity|].
  destruct (relogin_keeps_role (Some "development") 9000 dave_claims (Some "client")
              [dave; alice] dave) as (Hok & Hrow & _); [reflexivity|].
  destruct Hok as [db' Hdb']; [reflexivity|].
  exists db'. split; [exact Hdb'|]. by destruct (Hrow db' Hdb') as (_ & Hrole & _).
Defined.

Lemma new_user_role_rule_witness :
  (exists db' u,
     ReplitAuth.upsertUser None 9000 erin_claims (Some "client") [alice] = Ok db' /\
     Storage.getUser db' "sub-erin" = Some u /\ User.role u = admin) /\
  (exists db' u,
     ReplitAuth.upsertUser None 9000 erin_claims None [root; alice] = Ok db' /\
     Storage.getUser db' "sub-erin" = Some u /\ User.role u = client) /\
  (exists resp db' sess u,
     Routes.handleDevLogin 9000 dev_request_plain [alice] = (resp, db', sess) /\
     Storage.getUser db' "dev-user" = Some u /\ User.role u = admin).
Proof.
  split; [|split].
  - destruct (new_user_role_rule None 9000 erin_claims (Some "client")
                dev_request_plain [alice]) as [Hfed _].
    destruct Hfed as (db' & u & Hok & Hu & Hfirst & _); [reflexivity..|].
    exists db', u. split; [exact Hok|]. split; [exact Hu|]. by apply Hfirst.
  - destruct (new_user_role_rule None 9000 erin_claims None
                dev_request_plain [root; alice]) as [Hfed _].
    destruct Hfed as (db' & u & Hok & Hu & _ & Hnext); [reflexivity..|].
    exists db', u. split; [exact Hok|]. split; [exact Hu|]. by apply Hnext.
  - destruct (new_user_role_rule None 9000 erin_claims None
                dev_request_plain [alice]) as [_ Hdev].
    destruct Hdev as (resp & db' & sess & u & Hok & Hu & _ & Hfirst & _); [reflexivity..|].
    exists resp, db', sess, u. split; [exact Hok|]. split; [exact Hu|]. by apply Hfirst.
Defined.

(** On an empty table a development login that asks for the client role
    creates its user as a client although no admin exists. *)
Lemma dev_login_first_user_client :
  Storage.getUser [] (Routes.dev_userId dev_request_client) = None /\
  Storage.getUsersByRole [] admin = [] /\
  (Routes.handleDevLogin 9000 dev_request_client []).1.2
    = [Storage.inserted_row 9000
         {| UpsertUser.id := "dev-user";
            UpsertUser.email := JsString "dev-user@dev.local";
            UpsertUser.firstName := JsString "Dev";
            UpsertUser.lastName := JsString "User";
            UpsertUser.profileImageUrl := JsNull;
            UpsertUser.role := client |}] /\
  User.role <$> Storage.getUser (Routes.handleDevLogin 9000 dev_request_client []).1.2
                  "dev-user" = Some client /\
  client <> admin.
Proof. repeat split; try (vm_compute; reflexivity). discriminate. Qed.

Lemma credential_validator_witness :
  LocalAuth.verify (H := sample_bcrypt) [root; alice; bob] "alice" "secret123"
    = LocalAuth.Authenticated alice /\
  LocalAuth.verify (H := sample_bcrypt) [root; alice; bob] "mallory" "secret123"
    = LocalAuth.Refused "Invalid username or password" /\
  LocalAuth.verify (H := sample_bcrypt) [root; alice; bob] "alice" "wrongpass"
    = LocalAuth.Refused "Invalid username or password" /\
  LocalAuth.verify (H := sample_bcrypt) [root; alice; bob] "bob" "hunter2"
    = LocalAuth.Refused "Account is disabled".
Proof.
  pose proof (credential_validator (H := sample_bcrypt) [root; alice; bob]
                "alice" "secret123") as (Hok & _).
  pose proof (credential_validator (H := sample_bcrypt) [root; alice; bob]
                "mallory" "secret123") as (_ & Hunknown & _).
  pose proof (credential_validator (H := sample_bcrypt) [root; alice; bob]
                "alice" "wrongpass") as (_ & _ & Hwrong & _).
  pose proof (credential_validator (H := sample_bcrypt) [root; alice; bob]
                "bob" "hunter2") as (_ & _ & _ & Hoff & _).
  split; [by apply Hok|]. split; [by apply Hunknown|].
  split; [by apply (Hwrong alice) | by apply (Hoff bob)].
Defined.

Lemma hashless_account_cannot_login_witness :
  User.password dave = None /\
  (forall password, Storage.validatePassword (H := sample_bcrypt) dave password = false) /\
  (forall db (username password : jsval),
     LocalAuth.authenticate (H := sample_bcrypt) db username password
       <> LocalAuth.Authenticated dave).
Proof.
  split; [reflexivity|].
  destruct (hashless_account_cannot_login (H := sample_bcrypt) dave) as (Hv & _ & Ha & _);
    [reflexivity|].
  split; [exact Hv | exact Ha].
Defined.

End Instances.

(** ** More on the gate *)

Section GateMore.
Import AuthSession.
Implicit Types (P : Provider) (req : Req) (o : OIDCUser.t) (st : Net).

(** X1: a local principal (a [users] row) is passed on exactly when the
    request is authenticated and the row id is non-empty; the gate makes no
    network call for it, leaves the request as it is, and when it passes the
    request on [getUserId] is the row id. *)
Theorem local_principal_offline P (now_ms : Z) req (u : User.t) st :
  user req = Some (PLocal u) ->
  (unifiedIsAuthenticated P now_ms req st).2 = st /\
  (unifiedIsAuthenticated P now_ms req st).1.2 = req /\
  ((unifiedIsAuthenticated P now_ms req st).1.1 = Next <->
     isAuthenticated req = true /\ User.id u <> "") /\
  ((unifiedIsAuthenticated P now_ms req st).1.1 = Next ->
     getUserId (user req) = Some (User.id u)).
Proof.
  intros Hu. unfold unifiedIsAuthenticated, getUserId. rewrite Hu.
  destruct (isAuthenticated req); [|by repeat split; try done; intros []].
  destruct (truthy_string (User.id u)) eqn:Hid; cbn.
  - apply truthy_string_inv in Hid. by repeat split.
  - repeat split; try done. intros [_ Hne].
    by rewrite (truthy_string_true _ Hne) in Hid.
Qed.

(** X2: one run of the gate adds at most a discovery request followed by one
    token request to the log of calls, keeps what was logged before, and
    adds anything only for a federated principal that has expired and
    carries a refresh token, which is the token it sends. *)
Theorem gate_network_footprint P (now_ms : Z) req st :
  exists extra,
    calls (unifiedIsAuthenticated P now_ms req st).2 = calls st ++ extra /\
    (extra = [] \/
     exists o e rt,
       user req = Some (POidc o) /\
       OIDCUser.expires_at o = Some e /\ e < now_ms / 1000 /\
       OIDCUser.refresh_token o = Some rt /\
       (extra = [Discovery] \/ extra = [TokenEndpoint rt]
        \/ extra = [Discovery; TokenEndpoint rt])).
Proof.
  unfold unifiedIsAuthenticated.
  destruct (isAuthenticated req), (user req) as [[o|u]|];
    try (exists []; rewrite app_nil_r; split; [done | by left]).
  - destruct (has_oidc_shape (POidc o));
      [|exists []; rewrite app_nil_r; split; [done | by left]].
    destruct (OIDCUser.expires_at o) as [e|] eqn:He;
      [|exists []; rewrite app_nil_r; split; [done | by left]].
    destruct (Z.eqb_spec e 0);
      [exists []; rewrite app_nil_r; split; [done | by left]|].
    destruct (Z.leb_spec (now_ms / 1000) e);
      [exists []; rewrite app_nil_r; split; [done | by left]|].
    destruct (OIDCUser.refresh_token o) as [rt|] eqn:Hrt;
      [|exists []; rewrite app_nil_r; split; [done | by left]].
    destruct (truthy_string rt);
      [|exists []; rewrite app_nil_r; split; [done | by left]].
    unfold bind, refresh_exchange, bind, getOidcConfig, call_refreshTokenGrant.
    destruct (oidc_cache st) as [[fetched [cfg|]]|] eqn:Hc.
    + destruct (now_ms <? fetched + maxAge).
      * destruct (refreshTokenGrant P cfg rt); cbn;
          (exists [TokenEndpoint rt]; split; [done|]; right; exists o, e, rt; auto 10).
      * destruct (discovery P) as [cfg'|]; cbn.
        -- destruct (refreshTokenGrant P cfg' rt); cbn; rewrite <- app_assoc;
             (exists [Discovery; TokenEndpoint rt]; split; [done|];
              right; exists o, e, rt; auto 10).
        -- exists [Discovery]; split; [done|]; right; exists o, e, rt; auto 10.
    + destruct (now_ms <? fetched + maxAge).
      * cbn. exists []; rewrite app_nil_r; split; [done | by left].
      * destruct (discovery P) as [cfg'|]; cbn.
        -- destruct (refreshTokenGrant P cfg' rt); cbn; rewrite <- app_assoc;
             (exists [Discovery; TokenEndpoint rt]; split; [done|];
              right; exists o, e, rt; auto 10).
        -- exists [Discovery]; split; [done|]; right; exists o, e, rt; auto 10.
    + destruct (discovery P) as [cfg'|]; cbn.
      * destruct (refreshTokenGrant P cfg' rt); cbn; rewrite <- app_assoc;
          (exists [Discovery; TokenEndpoint rt]; split; [done|];
           right; exists o, e, rt; auto 10).
      * exists [Discovery]; split; [done|]; right; exists o, e, rt; auto 10.
  - destruct (truthy_string (User.id u));
      exists []; rewrite app_nil_r; split; done || by left.
Qed.

(** X3: starting without a cached configuration, awaiting [getOidcConfig] at
    a first instant and then at any instants less than [maxAge] after it
    sends one discovery request in all, and every call gets the answer of
    that one request. *)
Theorem discovery_fetched_once P (t0 : Z) (rest : list Z) st :
  oidc_cache st = None ->
  Forall (fun t => t < t0 + maxAge) rest ->
  (Discovery.poll_config P (t0 :: rest) st).1 = replicate (S (length rest)) (discovery P) /\
  calls (Discovery.poll_config P (t0 :: rest) st).2 = calls st ++ [Discovery].
Proof.
  intros Hc Hrest.
  set (st1 := {| oidc_cache := Some (t0, discovery P); calls := calls st ++ [Discovery] |}).
  assert (Hhit : Discovery.poll_config P rest st1
                 = (replicate (length rest) (discovery P), st1)).
  { induction Hrest as [|t rest Ht _ IH]; [done|].
    cbn [Discovery.poll_config]. unfold bind at 1, getOidcConfig at 1. cbn [oidc_cache st1].
    apply Z.ltb_lt in Ht. rewrite Ht. unfold bind. by rewrite IH. }
  assert (Hrun : Discovery.poll_config P (t0 :: rest) st
                 = (replicate (S (length rest)) (discovery P), st1)).
  { cbn [Discovery.poll_config]. unfold bind, getOidcConfig. rewrite Hc.
    fold st1. by rewrite Hhit. }
  by rewrite Hrun.
Qed.

(** X4: a refresh whose response carries a refresh token leaves exactly the
    user object a login with that response creates; in any case applying
    the same response a second time changes nothing. *)
Theorem refresh_like_fresh_login o (tr : TokenResponse.t) :
  (truthy_opt (TokenResponse.refresh_token tr) = true ->
     updateUserSession o tr = createOIDCUser tr) /\
  updateUserSession (updateUserSession o tr) tr = updateUserSession o tr.
Proof.
  unfold updateUserSession, createOIDCUser. split.
  - by intros ->.
  - cbn. by destruct (truthy_opt (TokenResponse.refresh_token tr)).
Qed.

(** The gate on an expired federated principal whose exchange succeeds. *)
Lemma gate_refresh_step P (now_ms : Z) req o (e : Z) (rt : string)
    (tr : TokenResponse.t) st :
  isAuthenticated req = true ->
  user req = Some (POidc o) ->
  federated o ->
  OIDCUser.expires_at o = Some e ->
  e <> 0 ->
  e < now_ms / 1000 ->
  OIDCUser.refresh_token o = Some rt ->
  rt <> "" ->
  (refresh_exchange P now_ms rt st).1 = Some tr ->
  (unifiedIsAuthenticated P now_ms req st).1 =
    (Next, {| isAuthenticated := true; user := Some (POidc (updateUserSession o tr)) |}).
Proof.
  intros Hauth Hu Hf He Hnz Hexp Hrt Hne Hok.
  unfold unifiedIsAuthenticated. rewrite Hauth, Hu.
  unfold federated in Hf. rewrite Hf, He, Hrt.
  destruct (Z.eqb_spec e 0); [done|].
  destruct (Z.leb_spec (now_ms / 1000) e); [lia|].
  rewrite truthy_string_true by done. unfold bind.
  destruct (refresh_exchange P now_ms rt st) as [r st'].
  cbn [fst] in Hok. by subst r.
Qed.

(** X5: when a refresh succeeds with a non-empty access token and claims
    whose expiry is not before the current time, the gate run at once on
    the refreshed request passes it on unchanged with no further call. *)
Theorem refreshed_principal_is_fresh P (now_ms : Z) req o (e e' : Z) (rt : string)
    (tr : TokenResponse.t) (c : Claims.t) st :
  isAuthenticated req = true ->
  user req = Some (POidc o) ->
  federated o ->
  OIDCUser.expires_at o = Some e ->
  e <> 0 ->
  e < now_ms / 1000 ->
  OIDCUser.refresh_token o = Some rt ->
  rt <> "" ->
  (refresh_exchange P now_ms rt st).1 = Some tr ->
  TokenResponse.claims tr = Some c ->
  Claims.exp c = Some e' ->
  e' <> 0 ->
  now_ms / 1000 <= e' ->
  TokenResponse.access_token tr <> "" ->
  let r := unifiedIsAuthenticated P now_ms req st in
  r.1.1 = Next /\
  unifiedIsAuthenticated P now_ms r.1.2 r.2 = ((Next, r.1.2), r.2).
Proof.
  intros Hauth Hu Hf He Hnz Hexp Hrt Hne Hok Hc He' Hnz' Hfresh Hat r.
  pose proof (gate_refresh_step P now_ms req o e rt tr st
                Hauth Hu Hf He Hnz Hexp Hrt Hne Hok) as Hgate.
  fold r in Hgate. destruct r as [[v req'] st']. cbn [fst snd] in *.
  injection Hgate as -> ->. split; [done|].
  assert (Hshape : has_oidc_shape (POidc (updateUserSession o tr)) = true).
  { unfold has_oidc_shape, updateUserSession. cbn [OIDCUser.claims OIDCUser.access_token].
    rewrite Hc, truthy_string_true by done. by rewrite bool_decide_eq_true_2. }
  assert (Hnew : OIDCUser.expires_at (updateUserSession o tr) = Some e').
  { unfold updateUserSession. cbn [OIDCUser.expires_at]. by rewrite Hc. }
  unfold unifiedIsAuthenticated. cbn [isAuthenticated user]. rewrite Hshape, Hnew.
  destruct (Z.eqb_spec e' 0); [done|].
  by destruct (Z.leb_spec (now_ms / 1000) e'); [|lia].
Qed.

(** X6: when a refresh succeeds but the response has no claims (no id
    token), the gate still passes this request on, yet the user object it
    leaves has neither claims nor an expiry: it cannot be serialized and
    every later run of the gate on it answers 401 without any call. *)
Theorem refresh_without_claims P (now_ms : Z) req o (e : Z) (rt : string)
    (tr : TokenResponse.t) st :
  isAuthenticated req = true ->
  user req = Some (POidc o) ->
  federated o ->
  OIDCUser.expires_at o = Some e ->
  e <> 0 ->
  e < now_ms / 1000 ->
  OIDCUser.refresh_token o = Some rt ->
  rt <> "" ->
  (refresh_exchange P now_ms rt st).1 = Some tr ->
  TokenResponse.claims tr = None ->
  let r := unifiedIsAuthenticated P now_ms req st in
  r.1.1 = Next /\
  serializeUser (POidc (updateUserSession o tr)) = Err "Unknown user type for serialization" /\
  forall P' (later_ms : Z) st',
    unifiedIsAuthenticated P' later_ms r.1.2 st' =
      ((Reply {| status := 401; body := message_body "Unauthorized" |}, r.1.2), st').
Proof.
  intros Hauth Hu Hf He Hnz Hexp Hrt Hne Hok Hc r.
  pose proof (gate_refresh_step P now_ms req o e rt tr st
                Hauth Hu Hf He Hnz Hexp Hrt Hne Hok) as Hgate.
  fold r in Hgate. destruct r as [[v req'] st1]. cbn [fst snd] in *.
  injection Hgate as -> ->.
  assert (Hshape : has_oidc_shape (POidc (updateUserSession o tr)) = false).
  { unfold has_oidc_shape, updateUserSession. cbn. rewrite Hc.
    rewrite bool_decide_eq_false_2; [done|]. by intros [? ?]. }
  split; [done|]. split.
  - unfold serializeUser. by rewrite Hshape.
  - intros P' later_ms st'. unfold unifiedIsAuthenticated.
    cbn [isAuthenticated user]. by rewrite Hshape.
Qed.

End GateMore.

(** ** Federated login, continued *)

Section FederatedMore.
Import AuthSession.
Implicit Types (db : list User.t) (claims : Claims.t) (hint NODE_ENV : option string).

Lemma upsert_outcome NODE_ENV (now : Z) claims hint db :
  ReplitAuth.upsertUser NODE_ENV now claims hint db =
    if Storage.email_taken db (Claims.sub claims) (login_email db claims)
    then Err (Storage.UniqueViolation "users_email_unique")
    else
      match Storage.getUser db (Claims.sub claims) with
      | Some u =>
          Ok (map (fun r => if bool_decide (User.id r = Claims.sub claims)
                            then Storage.updated_row now
                                   (ReplitAuth.profile_of_claims claims (User.role u)) r
                            else r) db)
      | None =>
          Ok (db ++ [Storage.inserted_row now
                       (ReplitAuth.profile_of_claims claims
                          (ReplitAuth.new_user_role NODE_ENV hint db))])
      end.
Proof.
  unfold login_email.
  destruct (Storage.getUser db (Claims.sub claims)) as [u|] eqn:Hu.
  - by rewrite (upsert_known _ _ _ _ _ _ Hu).
  - by rewrite (upsert_unknown _ _ _ _ _ Hu).
Qed.

(** The row a federated login stores is found under the subject id, with
    the role [login_role]. *)
Lemma upsert_stores NODE_ENV (now : Z) claims hint db db' :
  ReplitAuth.upsertUser NODE_ENV now claims hint db = Ok db' ->
  exists row, Storage.getUser db' (Claims.sub claims) = Some row /\
              User.id row = Claims.sub claims /\
              User.role row = login_role NODE_ENV hint db claims.
Proof.
  rewrite upsert_outcome. unfold login_role.
  destruct (Storage.email_taken _ _ _); [done|].
  destruct (Storage.getUser db (Claims.sub claims)) as [u|] eqn:Hu; intros [= <-].
  - eexists. rewrite getUser_map, Hu; [|intros r; by case_bool_decide].
    cbn. split; [done|]. pose proof (getUser_id _ _ _ Hu).
    by rewrite bool_decide_eq_true_2.
  - eexists. split; [by apply getUser_app_new|]. done.
Qed.

(** X7: outside development mode the intended-role hint has no effect on a
    federated login: the table afterwards (or the failure) is the one of a
    login without a hint. *)
Theorem hint_ignored_outside_development NODE_ENV (now : Z) claims hint db :
  NODE_ENV <> Some "development" ->
  ReplitAuth.upsertUser NODE_ENV now claims hint db =
    ReplitAuth.upsertUser NODE_ENV now claims None db.
Proof.
  intros Henv. rewrite !upsert_outcome.
  destruct (Storage.email_taken _ _ _); [done|].
  destruct (Storage.getUser db (Claims.sub claims)); [done|].
  do 4 f_equal. unfold ReplitAuth.new_user_role.
  case_bool_decide; [done|]. destruct hint as [h|]; [|done].
  destruct (parse_role h); [|done]. by rewrite bool_decide_eq_false_2.
Qed.

Lemma parse_role_name (r : Role) : parse_role (role_name r) = Some r.
Proof. by destruct r. Qed.



(** X9: a federated login succeeds exactly when the tokens carry claims and
    the e-mail to store is not another user's.  It then hands passport the
    object [createOIDCUser] builds, clears the hint, and leaves a row under
    the subject id with the role [login_role]; for a non-empty subject id,
    [getUserId] on that object is the subject id and GET /api/auth/user
    answers with that row. *)
Theorem federated_login_resolves NODE_ENV (now : Z) hint (tokens : TokenResponse.t) db :
  match ReplitAuth.verify NODE_ENV now hint tokens db with
  | Ok (user, db', hint') =>
      user = createOIDCUser tokens /\ hint' = None /\
      exists claims row,
        TokenResponse.claims tokens = Some claims /\
        Storage.email_taken db (Claims.sub claims) (login_email db claims) = false /\
        Storage.getUser db' (Claims.sub claims) = Some row /\
        User.id row = Claims.sub claims /\
        User.role row = login_role NODE_ENV hint db claims /\
        (Claims.sub claims <> "" ->
           getUserId (Some (POidc user)) = Some (Claims.sub claims) /\
           Routes.auth_user_handler db' (request_of (POidc user)) =
             {| status := 200; body := User.to_json row |})
  | Err ReplitAuth.MissingClaims => TokenResponse.claims tokens = None
  | Err (ReplitAuth.StorageError _) =>
      exists claims,
        TokenResponse.claims tokens = Some claims /\
        Storage.email_taken db (Claims.sub claims) (login_email db claims) = true
  end.
Proof.
  unfold ReplitAuth.verify.
  destruct (TokenResponse.claims tokens) as [claims|] eqn:Hc; [|done].
  destruct (ReplitAuth.upsertUser NODE_ENV now claims hint db) as [db'|e] eqn:Hup.
  - split; [done|]. split; [done|].
    destruct (upsert_stores _ _ _ _ _ _ Hup) as (row & Hrow & Hid & Hrole).
    exists claims, row. repeat split; try done.
    + rewrite upsert_outcome in Hup. by destruct (Storage.email_taken _ _ _).
    + unfold getUserId, createOIDCUser. cbn. rewrite Hc.
      by rewrite truthy_string_true.
    + unfold Routes.auth_user_handler, request_of, createOIDCUser, getUserId. cbn.
      rewrite Hc. rewrite bool_decide_eq_true_2 by done.
      rewrite truthy_string_true by done. cbn. by rewrite Hrow.
  - exists claims. split; [done|]. rewrite upsert_outcome in Hup.
    destruct (Storage.email_taken _ _ _); [done|].
    by destruct (Storage.getUser db (Claims.sub claims)).
Qed.

End FederatedMore.

(** ** The role middlewares *)

Section Guards.
Import AuthSession.

(** X10: [requireAdmin] passes a request on exactly when it is
    authenticated and carries a [users] row whose role is admin.  A
    federated user object has no [role] property: it is answered 403 even
    when storage, which the routes consult, knows its subject as an admin. *)
Theorem requireAdmin_needs_row (req : Req) :
  (LocalGuards.requireAdmin req = Ok Next <->
     isAuthenticated req = true /\
     exists u, user req = Some (PLocal u) /\ User.role u = admin) /\
  (forall db o claims row,
     isAuthenticated req = true ->
     user req = Some (POidc o) ->
     OIDCUser.claims o = Some claims ->
     Claims.sub claims <> "" ->
     Storage.getUser db (Claims.sub claims) = Some row ->
     User.role row = admin ->
     Routes.not_admin db req = false /\
     LocalGuards.requireAdmin req =
       Ok (Reply {| status := 403; body := message_body "Admin access required" |})).
Proof.
  unfold LocalGuards.requireAdmin. split.
  - destruct (isAuthenticated req); cbn; [|split; [done | by intros []]].
    destruct (user req) as [[o|u]|]; cbn.
    + rewrite bool_decide_eq_false_2 by done.
      split; [done | by intros (_ & u & ? & _)].
    + case_bool_decide as Hr.
      * split; [|done]. intros _. split; [done|]. exists u. split; [done | congruence].
      * split; [done|]. intros (_ & u' & [= <-] & Hadm). by rewrite Hadm in Hr.
    + split; [done | by intros (_ & u & ? & _)].
  - intros db o claims row -> Hu Hc Hsub Hrow Hadm. cbn. rewrite Hu. cbn.
    rewrite bool_decide_eq_false_2 by done. split; [|done].
    unfold Routes.not_admin, getUserId. rewrite Hu, Hc.
    rewrite truthy_string_true by done. cbn. rewrite Hrow, Hadm. done.
Qed.

End Guards.

(** ** User management *)

Section UserManagement.
Import AuthSession UserStore UserRoutes.
Implicit Types (db : list User.t) (req : Req) (me id : string).

Lemma getUser_filter_gone db id :
  Storage.getUser (filter (fun u => User.id u <> id) db) id = None.
Proof.
  unfold Storage.getUser. apply head_None.
  induction db as [|r db IH]; [done|].
  rewrite filter_cons. destruct (decide (User.id r <> id)); [|done].
  by rewrite filter_cons_False by done.
Qed.

Lemma getUser_filter_other db id k :
  k <> id ->
  Storage.getUser (filter (fun u => User.id u <> id) db) k = Storage.getUser db k.
Proof.
  intros Hk. induction db as [|r db IH]; [done|].
  rewrite filter_cons. destruct (decide (User.id r <> id)) as [Hr|Hr].
  - rewrite !getUser_cons. by rewrite IH.
  - rewrite getUser_cons, IH. rewrite bool_decide_eq_false_2; [done|].
    apply dec_stable in Hr. congruence.
Qed.

Lemma not_admin_spec db req :
  Routes.not_admin db req = false <->
  exists me cur, getUserId (user req) = Some me /\ Storage.getUser db me = Some cur
                 /\ User.role cur = admin.
Proof.
  unfold Routes.not_admin, Routes.getUser_opt.
  destruct (getUserId (user req)) as [me|]; cbn.
  - destruct (Storage.getUser db me) as [cur|] eqn:Hcur; cbn.
    + case_bool_decide as Hr; cbn.
      * split; [|done]. intros _. by exists me, cur.
      * split; [done|]. intros (me' & cur' & [= <-] & Hc & Hadm).
        rewrite Hcur in Hc. injection Hc as <-. done.
    + split; [done|]. intros (me' & cur' & [= <-] & Hc & _). by rewrite Hcur in Hc.
  - split; [done|]. by intros (? & ? & ? & _).
Qed.

(** X11: a caller whose stored role is not admin (or who is not stored at
    all) gets 403 from the four admin-only user routes, and neither the
    table nor the audit log changes. *)
Theorem admin_only_user_routes `{Bcrypt} db req :
  Routes.not_admin db req = true ->
  (forall role, Routes.users_handler db role req = Routes.access_denied) /\
  (forall now uuid salt b,
     Routes.create_user_handler now uuid salt db b req = (Routes.access_denied, db)) /\
  (forall now client id userData,
     update_user_handler now client db id userData req = (Routes.access_denied, db, None)) /\
  (forall referenced client id,
     delete_user_handler referenced client db id req = (Routes.access_denied, db, None)).
Proof.
  intros Hna. unfold Routes.users_handler, Routes.create_user_handler. rewrite Hna.
  split; [done|]. split; [done|].
  unfold update_user_handler, delete_user_handler.
  unfold Routes.not_admin, Routes.getUser_opt in Hna.
  destruct (getUserId (user req)) as [me|]; cbn in Hna; [|done].
  destruct (Storage.getUser db me) as [cur|]; cbn in Hna; [|done].
  by rewrite Hna.
Qed.


(** X13: when an admin changes the role of a stored user through
    PUT /api/users/:id, and the other entries do not collide with another
    user's e-mail, the answer is 200 with the new row, the table holds that
    row under the same id and every other row as before, one audit entry
    names the admin and the target, and the target's local session
    deserializes to the row with the new role on its next request. *)
Theorem role_change_takes_effect (now : Z) (client : Client) db id
    (userData : UserPatch) (role : Role) req me (cur old : User.t) :
  getUserId (user req) = Some me ->
  Storage.getUser db me = Some cur ->
  User.role cur = admin ->
  Storage.getUser db id = Some old ->
  p_role userData = JsString (role_name role) ->
  (id = me -> role = admin) ->
  Storage.email_taken db id
    (Storage.set_column (p_email userData) (User.email old)) = false ->
  let new := patched_row now userData role old in
  exists db',
    update_user_handler now client db id userData req =
      (Routes.reply 200 (User.to_json new), db',
       Some {| userId := me; action := updated; resourceType := "user";
               resourceId := id;
               details := JObj [("changes", patch_json userData)];
               ipAddress := ip client; userAgent := user_agent client |}) /\
    Storage.getUser db' id = Some new /\
    User.role new = role /\
    deserializeUser db' (SessLocal id) = Ok (PLocal new) /\
    forall k, k <> id -> Storage.getUser db' k = Storage.getUser db k.
Proof.
  intros Hme Hcur Hadm Hold Hrole Hself Hfree new.
  pose proof (getUser_id _ _ _ Hcur) as Hid.
  pose proof (getUser_id _ _ _ Hold) as Hoid.
  unfold update_user_handler. rewrite Hme, Hcur, Hadm, Hid. cbn [negb bool_decide].
  rewrite bool_decide_eq_true_2 by done. cbn [negb].
  assert (Hguard : bool_decide (id = me) && truthy (p_role userData)
                   && is_not_admin_role (p_role userData) = false).
  { case_bool_decide as Hs; [|done]. rewrite (Hself Hs) in Hrole. by rewrite Hrole. }
  rewrite Hguard. unfold updateUser. rewrite Hrole. cbn [role_assignment].
  rewrite parse_role_name, Hold. cbn [mjoin default].
  cbn [patched_row User.email]. rewrite Hfree.
  set (f := fun r : User.t => if bool_decide _ then _ else r).
  assert (Hf : forall r, User.id (f r) = User.id r).
  { intros r. unfold f. by destruct (bool_decide (User.id r = id)). }
  assert (Hnew : Storage.getUser (map f db) id = Some new).
  { rewrite getUser_map, Hold by done. cbn. unfold f.
    by rewrite bool_decide_eq_true_2. }
  exists (map f db). split; [by rewrite <- Hoid|]. split; [done|]. split; [done|].
  split; [cbn; by rewrite Hnew|].
  intros k Hk. rewrite getUser_map by done.
  destruct (Storage.getUser db k) as [r|] eqn:Hr; [|done]. cbn. f_equal.
  pose proof (getUser_id _ _ _ Hr). unfold f.
  rewrite bool_decide_eq_false_2; [done | congruence].
Qed.

(** X14: when an admin deletes another stored user that no other table
    refers to, DELETE /api/users/:id answers 204, the user is gone and the
    other rows are as before, the audit entry carries the deleted row, and
    a local session of the deleted user no longer deserializes. *)
Theorem deleted_user_session_dies (referenced : string -> bool) (client : Client) db id
    req me (cur target : User.t) :
  getUserId (user req) = Some me ->
  Storage.getUser db me = Some cur ->
  User.role cur = admin ->
  id <> me ->
  Storage.getUser db id = Some target ->
  referenced id = false ->
  exists db',
    delete_user_handler referenced client db id req =
      (Routes.reply 204 JNull, db',
       Some {| userId := me; action := deleted; resourceType := "user";
               resourceId := id;
               details := JObj [("deletedUser", User.to_json target)];
               ipAddress := ip client; userAgent := user_agent client |}) /\
    Storage.getUser db' id = None /\
    deserializeUser db' (SessLocal id) = Err "User not found" /\
    forall k, k <> id -> Storage.getUser db' k = Storage.getUser db k.
Proof.
  intros Hme Hcur Hadm Hne Htarget Href.
  pose proof (getUser_id _ _ _ Hcur) as Hid.
  unfold delete_user_handler. rewrite Hme, Hcur, Hadm, Hid. cbn [negb bool_decide].
  rewrite bool_decide_eq_true_2 by done. cbn [negb].
  rewrite bool_decide_eq_false_2 by done. rewrite Htarget.
  unfold deleteUser. rewrite Htarget, Href, andb_false_r.
  eexists. split; [done|]. split; [apply getUser_filter_gone|].
  split; [cbn; by rewrite getUser_filter_gone|].
  intros k Hk. by apply getUser_filter_other.
Qed.

End UserManagement.

(** ** Local accounts from creation to login *)

Section LocalAccounts.
Context `{Bcrypt}.
Import AuthSession.
Implicit Types (db : list User.t) (u : User.t).


Lemma getUser_elem_of db k u : Storage.getUser db k = Some u -> u ∈ db.
Proof.
  unfold Storage.getUser. intros Hh.
  by apply head_Some_elem_of, list_elem_of_filter in Hh as [_ ?].
Qed.

Lemma getUser_NoDup db u :
  NoDup (map User.id db) -> u ∈ db -> Storage.getUser db (User.id u) = Some u.
Proof.
  induction db as [|r db IH]; cbn [map]; intros Hnd Hin; [by apply elem_of_nil in Hin|].
  apply NoDup_cons in Hnd as [Hr Hnd]. rewrite getUser_cons.
  apply elem_of_cons in Hin as [->|Hin]; [by rewrite bool_decide_eq_true_2|].
  rewrite bool_decide_eq_false_2; [by apply IH|].
  intros Heq. apply Hr. rewrite Heq. by apply list_elem_of_fmap_2.
Qed.

Lemma getUser_app_l db k u row :
  Storage.getUser db k = Some u -> Storage.getUser (db ++ [row]) k = Some u.
Proof.
  unfold Storage.getUser. rewrite filter_app. intros Hh.
  apply head_Some in Hh as [l ->]. done.
Qed.

Lemma getUserByUsername_elem_of db n u :
  Storage.getUserByUsername db n = Some u -> u ∈ db /\ User.username u = Some n.
Proof.
  unfold Storage.getUserByUsername. intros Hh.
  by apply head_Some_elem_of, list_elem_of_filter in Hh as [? ?].
Qed.

Lemma getUserByUsername_app_new db n row :
  Storage.getUserByUsername db n = None -> User.username row = Some n ->
  Storage.getUserByUsername (db ++ [row]) n = Some row.
Proof.
  unfold Storage.getUserByUsername. rewrite filter_app, head_None.
  intros -> Hn. by rewrite filter_cons_True.
Qed.

(** X15: provided the hashing library matches a password against its own
    hash and never yields an empty hash, every 201 of the create-user
    handler leaves a user who can log in at once: the validator accepts the
    submitted name and password and returns the created row, which is not
    an admin, and POST /api/local-login answers 200 with a session for the
    new id. *)
Theorem created_user_can_log_in (now : Z) (uuid salt : string) db
    (b : Routes.CreateUserBody) (req : Req) (resp : Response) (db' : list User.t) :
  bcrypt_sound ->
  uuid <> "" ->
  Routes.create_user_handler now uuid salt db b req = (resp, db') ->
  status resp = 201 ->
  exists username password newUser,
    Routes.cu_username b = JsString username /\
    Routes.cu_password b = JsString password /\
    LocalAuth.verify db' username password = LocalAuth.Authenticated newUser /\
    User.id newUser = uuid /\
    User.role newUser <> admin /\
    (Routes.local_login db' (JsString username) (JsString password)).2 = Some (SessLocal uuid) /\
    status (Routes.local_login db' (JsString username) (JsString password)).1 = 200.
Proof.
  intros [Hcmp Hhash] Huuid. unfold Routes.create_user_handler.
  destruct (Routes.not_admin db req); [by intros [= <- _]|].
  destruct (Routes.cu_username b) as [| |username]; try by intros [= <- _].
  destruct (Routes.cu_password b) as [| |password]; try by intros [= <- _].
  destruct (Routes.cu_role b) as [| |role]; try by intros [= <- _].
  destruct (truthy_string username) eqn:Hun; [|by intros [= <- _]].
  destruct (truthy_string password) eqn:Hpw; [|by intros [= <- _]].
  destruct (truthy_string role); [|by intros [= <- _]]. cbn [andb negb].
  set (chosen := if bool_decide (role = "pentester") then _ else _).
  destruct chosen as [r|] eqn:Hr; [|by intros [= <- _]].
  destruct (Storage.getUserByUsername db username) eqn:Hfree; [by intros [= <- _]|].
  unfold Storage.createUserWithPassword.
  destruct (Storage.getUser db uuid); [by intros [= <- _]|].
  destruct (Storage.email_taken _ _ _); [by intros [= <- _]|].
  intros [= <- <-] _.
  set (row := {| User.id := uuid |}).
  assert (Hfound : Storage.getUserByUsername (db ++ [row]) username = Some row)
    by by apply getUserByUsername_app_new.
  assert (Hverify : LocalAuth.verify (db ++ [row]) username password
                    = LocalAuth.Authenticated row).
  { unfold LocalAuth.verify. rewrite Hfound. unfold Storage.validatePassword. cbn.
    by rewrite (truthy_string_true _ (Hhash _ _ _)), Hcmp. }
  exists username, password, row. repeat split; try done.
  - subst chosen. cbn. repeat case_bool_decide; by simplify_eq.
  - unfold Routes.local_login, LocalAuth.authenticate. rewrite Hun, Hpw. cbn [andb].
    rewrite Hverify. unfold Routes.req_login, serializeUser. cbn.
    by rewrite truthy_string_true.
  - unfold Routes.local_login, LocalAuth.authenticate. rewrite Hun, Hpw. cbn [andb].
    rewrite Hverify. unfold Routes.req_login, serializeUser. cbn.
    by rewrite truthy_string_true.
Qed.

(** X16: the create-user handler never makes an admin and never touches a
    stored user: whatever the request, the admins listed afterwards are
    the admins listed before and every id resolves to the row it resolved
    to. *)
Theorem create_user_adds_no_admin (now : Z) (uuid salt : string) db
    (b : Routes.CreateUserBody) (req : Req) :
  let db' := (Routes.create_user_handler now uuid salt db b req).2 in
  Storage.getUsersByRole db' admin = Storage.getUsersByRole db admin /\
  forall k u, Storage.getUser db k = Some u -> Storage.getUser db' k = Some u.
Proof.
  unfold Routes.create_user_handler.
  destruct (Routes.not_admin db req); [done|].
  destruct (Routes.cu_username b) as [| |username]; try done.
  destruct (Routes.cu_password b) as [| |password]; try done.
  destruct (Routes.cu_role b) as [| |role]; try done.
  destruct (negb _); [done|].
  set (chosen := if bool_decide (role = "pentester") then _ else _).
  destruct chosen as [r|] eqn:Hr; [|done].
  destruct (Storage.getUserByUsername db username); [done|].
  unfold Storage.createUserWithPassword.
  destruct (Storage.getUser db uuid); [done|].
  destruct (Storage.email_taken _ _ _); [done|]. cbn [snd]. split.
  - rewrite getUsersByRole_app. unfold Storage.getUsersByRole at 2.
    rewrite filter_cons_False, filter_nil, app_nil_r; [done|].
    cbn. subst chosen. repeat case_bool_decide; by simplify_eq.
  - intros k u. apply getUser_app_l.
Qed.

(** X17: a successful local login leaves a session record that, in a table
    with unique ids, deserializes to the very row the credentials were
    checked against, and the gate passes that principal on without any
    network call. *)
Theorem local_login_session_resolves db (username password : jsval)
    (resp : Response) (sess : AuthSessionData) :
  NoDup (map User.id db) ->
  Routes.local_login db username password = (resp, Some sess) ->
  exists u,
    LocalAuth.authenticate db username password = LocalAuth.Authenticated u /\
    status resp = 200 /\
    sess = SessLocal (User.id u) /\
    deserializeUser db sess = Ok (PLocal u) /\
    forall P now_ms st,
      unifiedIsAuthenticated P now_ms (request_of (PLocal u)) st
        = ((Next, request_of (PLocal u)), st).
Proof.
  intros Hnd. unfold Routes.local_login.
  destruct (LocalAuth.authenticate db username password) as [u|msg] eqn:Hauth; [|done].
  unfold Routes.req_login, serializeUser.
  destruct (truthy_string (User.id u)) eqn:Hid; [|done].
  intros [= <- <-]. exists u. repeat split; try done.
  - apply authenticate_authenticated in Hauth as (n & p & _ & _ & Hv).
    apply verify_authenticated in Hv as (Hu & _ & _).
    apply getUserByUsername_elem_of in Hu as [Hin _].
    cbn. by rewrite (getUser_NoDup _ _ Hnd Hin).
  - intros P now_ms st. unfold unifiedIsAuthenticated, request_of. cbn. by rewrite Hid.
Qed.

End LocalAccounts.

(** ** Development login and the user listing *)

Section DevAndListing.
Import AuthSession.
Implicit Types (db : list User.t) (u : User.t).

Lemma dev_userId_nonempty (r : Routes.DevLoginReq) : Routes.dev_userId r <> "".
Proof.
  unfold Routes.dev_userId.
  destruct (js_or _ _) as [| |s]; try done.
  destruct (truthy_string s) eqn:Hs; [by apply truthy_string_inv|done].
Qed.

(** X18: the development login always logs its user in or fails as a whole.
    For a stored user id it answers 200 with that row and a local session
    and changes nothing, whatever role the request asks for.  For an
    unknown id it creates the user and answers 200 with a local session,
    unless the e-mail it derives from the id belongs to another user: then
    it answers 500 "Login failed" and changes nothing. *)
Theorem dev_login_outcome (now : Z) (r : Routes.DevLoginReq) db :
  let id := Routes.dev_userId r in
  let logged_in (row : User.t) (db' : list User.t) :=
    Routes.handleDevLogin now r db =
      ({| status := 200;
          body := JObj [("message", JStr "Login successful"); ("user", User.to_json row)] |},
       db', Some (SessLocal id)) in
  match Storage.getUser db id with
  | Some u => logged_in u db
  | None =>
      if Storage.email_taken db id (Some (id +:+ "@dev.local"))
      then Routes.handleDevLogin now r db =
             ({| status := 500; body := message_body "Login failed" |}, db, None)
      else exists row,
             logged_in row (db ++ [row]) /\ User.id row = id /\
             User.role row = Routes.dev_user_role r db
  end.
Proof.
  intros id logged_in. subst logged_in. cbn beta.
  pose proof (dev_userId_nonempty r) as Hne. fold id in Hne.
  unfold Routes.handleDevLogin, Routes.dev_find_or_create, Routes.req_login, serializeUser.
  fold id. destruct (Storage.getUser db id) as [u|] eqn:Hu.
  - pose proof (getUser_id _ _ _ Hu) as Hid.
    by rewrite Hid, truthy_string_true.
  - unfold Storage.upsertUser. cbn [UpsertUser.id]. rewrite Hu.
    cbn [Storage.inserted_row User.email UpsertUser.email Storage.insert_column].
    destruct (Storage.email_taken _ _ _); [done|].
    eexists. cbn [User.id]. by rewrite truthy_string_true.
Qed.

Lemma roles_partition db :
  Storage.getUsersByRole db admin ++ Storage.getUsersByRole db pentester
    ++ Storage.getUsersByRole db client ≡ₚ db.
Proof.
  unfold Storage.getUsersByRole. induction db as [|u db IH]; [done|].
  destruct (User.role u) eqn:Hr.
  - rewrite (filter_cons_True (fun u => User.role u = admin)) by done.
    rewrite !(filter_cons_False _ u) by congruence. cbn. by rewrite IH.
  - rewrite (filter_cons_True (fun u => User.role u = pentester)) by done.
    rewrite !(filter_cons_False _ u) by congruence. cbn [app].
    rewrite <- Permutation_middle. by rewrite IH.
  - rewrite (filter_cons_True (fun u => User.role u = client)) by done.
    rewrite !(filter_cons_False _ u) by congruence.
    rewrite app_assoc, <- Permutation_middle, <- app_assoc. by rewrite IH.
Qed.

(** X19: for an admin, GET /api/users answers 200 with the rows of the role
    the query names, in table order, when it names one of the three roles;
    with any other query it lists every stored user exactly once. *)
Theorem user_listing db (role : jsval) (req : Req) :
  Routes.not_admin db req = false ->
  exists users,
    Routes.users_handler db role req =
      {| status := 200; body := JArr (map User.to_json users) |} /\
    match role with
    | JsString s =>
        match parse_role s with
        | Some r => users = filter (fun u => User.role u = r) db
        | None => users ≡ₚ db
        end
    | _ => users ≡ₚ db
    end.
Proof.
  intros Hadm. unfold Routes.users_handler. rewrite Hadm.
  destruct role as [| |s]; try (eexists; split; [done | apply roles_partition]).
  destruct (truthy_string s) eqn:Hs.
  - destruct (parse_role s) as [r|]; eexists; (split; [done|]);
      [done | apply roles_partition].
  - assert (s = "") as ->.
    { unfold truthy_string in Hs. by case_bool_decide. }
    eexists; split; [done | apply roles_partition].
Qed.

End DevAndListing.

(** ** The keys of the users table *)

Section Keys.
Import UserStore.
Implicit Types (db : list User.t) (u : User.t).







End Keys.

(** ** Further instances on the sample data *)

Section InstancesMore.
Import AuthSession UserStore UserRoutes.

Lemma local_principal_offline_witness :
  user (request_of (PLocal alice)) = Some (PLocal alice) /\
  (unifiedIsAuthenticated provider_down 5000 (request_of (PLocal alice)) idle).2 = idle /\
  (unifiedIsAuthenticated provider_down 5000 (request_of (PLocal alice)) idle).1.1 = Next.
Proof.
  split; [reflexivity|].
  destruct (local_principal_offline provider_down 5000 (request_of (PLocal alice)) alice idle)
    as (Hst & _ & Hnext & _); [reflexivity|].
  split; [exact Hst|]. apply Hnext. split; [reflexivity | discriminate].
Defined.

Lemma discovery_fetched_once_witness :
  oidc_cache idle = None /\
  (Discovery.poll_config provider_up [1000; 2000; 3600999] idle).1
    = replicate 3 (discovery provider_up) /\
  calls (Discovery.poll_config provider_up [1000; 2000; 3600999] idle).2 = [Discovery].
Proof.
  split; [reflexivity|].
  apply (discovery_fetched_once provider_up 1000 [2000; 3600999] idle); [reflexivity|].
  repeat constructor.
Defined.

Lemma refresh_like_fresh_login_witness :
  truthy_opt (TokenResponse.refresh_token erin_tokens) = true /\
  updateUserSession carol erin_tokens = createOIDCUser erin_tokens.
Proof.
  split; [reflexivity|].
  destruct (refresh_like_fresh_login carol erin_tokens) as [Hsame _].
  apply Hsame. reflexivity.
Defined.

Lemma refreshed_principal_is_fresh_witness :
  (refresh_exchange provider_up 1700003601000 "rt-1" idle).1 = Some refreshed_tokens /\
  let r := unifiedIsAuthenticated provider_up 1700003601000 (request_of (POidc carol)) idle in
  r.1.1 = Next /\
  unifiedIsAuthenticated provider_up 1700003601000 r.1.2 r.2 = ((Next, r.1.2), r.2).
Proof.
  split; [reflexivity|].
  apply (refreshed_principal_is_fresh provider_up 1700003601000 (request_of (POidc carol))
           carol 1700003600 1700007200 "rt-1" refreshed_tokens refreshed_claims idle);
    try reflexivity; try discriminate.
Defined.

Lemma refresh_without_claims_witness :
  (refresh_exchange provider_bare 1700003601000 "rt-1" idle).1 = Some bare_tokens /\
  TokenResponse.claims bare_tokens = None /\
  let r := unifiedIsAuthenticated provider_bare 1700003601000 (request_of (POidc carol)) idle in
  r.1.1 = Next /\
  serializeUser (POidc (updateUserSession carol bare_tokens))
    = Err "Unknown user type for serialization" /\
  forall P' (later_ms : Z) st',
    unifiedIsAuthenticated P' later_ms r.1.2 st' =
      ((Reply {| status := 401; body := message_body "Unauthorized" |}, r.1.2), st').
Proof.
  split; [reflexivity|]. split; [reflexivity|].
  apply (refresh_without_claims provider_bare 1700003601000 (request_of (POidc carol))
           carol 1700003600 "rt-1" bare_tokens idle);
    try reflexivity; try discriminate.
Defined.

Lemma hint_ignored_outside_development_witness :
  Some "production" <> Some "development" /\
  ReplitAuth.upsertUser (Some "production") 9000 erin_claims (Some "admin") [root; alice]
    = ReplitAuth.upsertUser (Some "production") 9000 erin_claims None [root; alice].
Proof.
  split; [discriminate|].
  apply (hint_ignored_outside_development (Some "production") 9000 erin_claims
           (Some "admin") [root; alice]).
  discriminate.
Defined.


Lemma federated_login_resolves_witness :
  exists user db',
    ReplitAuth.verify None 9000 None erin_tokens [root; alice] = Ok (user, db', None) /\
    getUserId (Some (POidc user)) = Some "sub-erin" /\
    User.role <$> Storage.getUser db' "sub-erin" = Some client.
Proof.
  pose proof (federated_login_resolves None 9000 None erin_tokens [root; alice]) as Hlogin.
  destruct (ReplitAuth.verify None 9000 None erin_tokens [root; alice])
    as [[[user db'] hint']|e] eqn:Hv; [|vm_compute in Hv; discriminate].
  destruct Hlogin as (_ & -> & claims & row & Hc & _ & Hrow & _ & Hrole & Hid).
  injection Hc as <-. exists user, db'. split; [reflexivity|].
  split; [apply Hid; discriminate|].
  cbn [Claims.sub erin_claims] in Hrow. rewrite Hrow. cbn. by rewrite Hrole.
Defined.

Lemma requireAdmin_needs_row_witness :
  Storage.getUser [dave; alice] "sub-dave" = Some dave /\
  Routes.not_admin [dave; alice] (request_of (POidc dave_session)) = false /\
  LocalGuards.requireAdmin (request_of (POidc dave_session)) =
    Ok (Reply {| status := 403; body := message_body "Admin access required" |}).
Proof.
  split; [reflexivity|].
  destruct (requireAdmin_needs_row (request_of (POidc dave_session))) as [_ Hfed].
  apply (Hfed [dave; alice] dave_session dave_claims dave);
    try reflexivity; discriminate.
Defined.

Lemma admin_only_user_routes_witness :
  Routes.not_admin [root; alice] (request_of (PLocal alice)) = true /\
  update_user_handler 9000 some_client [root; alice] "u-alice" (role_patch "admin")
      (request_of (PLocal alice))
    = (Routes.access_denied, [root; alice], None) /\
  delete_user_handler unreferenced some_client [root; alice] "u-root"
      (request_of (PLocal alice))
    = (Routes.access_denied, [root; alice], None).
Proof.
  split; [reflexivity|].
  destruct (admin_only_user_routes (H := sample_bcrypt) [root; alice]
              (request_of (PLocal alice))) as (_ & _ & Hput & Hdel); [reflexivity|].
  split; [apply Hput | apply Hdel].
Defined.


Lemma role_change_takes_effect_witness :
  Storage.getUser [root; alice] "u-alice" = Some alice /\
  exists db',
    (update_user_handler 9000 some_client [root; alice] "u-alice" (role_patch "client")
       (request_of (PLocal root))).1.2 = db' /\
    User.role <$> Storage.getUser db' "u-alice" = Some client /\
    deserializeUser db' (SessLocal "u-alice")
      = Ok (PLocal (patched_row 9000 (role_patch "client") client alice)).
Proof.
  split; [reflexivity|].
  destruct (role_change_takes_effect 9000 some_client [root; alice] "u-alice"
              (role_patch "client") client (request_of (PLocal root)) "u-root" root alice)
    as (db' & Hput & Hrow & _ & Hsess & _); try reflexivity; [discriminate|].
  exists db'. split; [by rewrite Hput|]. split; [by rewrite Hrow | exact Hsess].
Defined.

Lemma deleted_user_session_dies_witness :
  Storage.getUser [root; alice] "u-alice" = Some alice /\
  exists db',
    (delete_user_handler unreferenced some_client [root; alice] "u-alice"
       (request_of (PLocal root))).1.2 = db' /\
    deserializeUser db' (SessLocal "u-alice") = Err "User not found" /\
    Storage.getUser db' "u-root" = Some root.
Proof.
  split; [reflexivity|].
  destruct (deleted_user_session_dies unreferenced some_client [root; alice] "u-alice"
              (request_of (PLocal root)) "u-root" root alice)
    as (db' & Hdel & _ & Hsess & Hframe); try reflexivity; [discriminate|].
  exists db'. split; [by rewrite Hdel|]. split; [exact Hsess|].
  rewrite Hframe; [reflexivity | discriminate].
Defined.

Lemma sample_bcrypt_sound : bcrypt_sound (H := sample_bcrypt).
Proof.
  split; intros password cost salt; cbn; [by rewrite bool_decide_eq_true_2 | discriminate].
Defined.

Lemma created_user_can_log_in_witness :
  let r := Routes.create_user_handler (H := sample_bcrypt) 9000 "u-frank" "salt"
             [root; alice] frank_body (request_of (PLocal root)) in
  status r.1 = 201 /\
  exists newUser,
    LocalAuth.verify (H := sample_bcrypt) r.2 "frank" "tr0ub4dor"
      = LocalAuth.Authenticated newUser /\
    User.role newUser <> admin /\
    (Routes.local_login (H := sample_bcrypt) r.2 (JsString "frank") (JsString "tr0ub4dor")).2
      = Some (SessLocal "u-frank").
Proof.
  intros r. split; [reflexivity|].
  destruct (created_user_can_log_in (H := sample_bcrypt) 9000 "u-frank" "salt" [root; alice]
              frank_body (request_of (PLocal root)) r.1 r.2 sample_bcrypt_sound)
    as (username & password & newUser & Hu & Hp & Hv & _ & Hrole & Hsess & _);
    [discriminate | apply surjective_pairing | reflexivity |].
  injection Hu as <-. injection Hp as <-. by exists newUser.
Defined.

Lemma create_user_adds_no_admin_witness :
  Storage.getUser [root; alice] "u-alice" = Some alice /\
  let db' := (Routes.create_user_handler (H := sample_bcrypt) 9000 "u-frank" "salt"
                [root; alice] frank_body (request_of (PLocal root))).2 in
  Storage.getUsersByRole db' admin = [root] /\
  Storage.getUser db' "u-alice" = Some alice.
Proof.
  split; [reflexivity|]. intros db'.
  destruct (create_user_adds_no_admin (H := sample_bcrypt) 9000 "u-frank" "salt"
              [root; alice] frank_body (request_of (PLocal root))) as [Hadm Hkeep].
  split; [exact Hadm | by apply Hkeep].
Defined.

Lemma local_login_session_resolves_witness :
  NoDup (map User.id [root; alice]) /\
  exists u,
    (Routes.local_login (H := sample_bcrypt) [root; alice]
       (JsString "alice") (JsString "secret123")).2 = Some (SessLocal (User.id u)) /\
    deserializeUser [root; alice] (SessLocal (User.id u)) = Ok (PLocal u).
Proof.
  assert (Hnd : NoDup (map User.id [root; alice])) by compute_done.
  split; [exact Hnd|].
  set (r := Routes.local_login (H := sample_bcrypt) [root; alice]
              (JsString "alice") (JsString "secret123")).
  destruct (local_login_session_resolves (H := sample_bcrypt) [root; alice]
              (JsString "alice") (JsString "secret123") r.1 (SessLocal "u-alice") Hnd)
    as (u & _ & _ & Hs & Hd & _); [reflexivity|].
  exists u. rewrite <- Hs. split; [reflexivity | exact Hd].
Defined.

Lemma user_listing_witness :
  Routes.not_admin [alice; root; bob] (request_of (PLocal root)) = false /\
  exists users,
    Routes.users_handler [alice; root; bob] JsUndefined (request_of (PLocal root)) =
      {| status := 200; body := JArr (map User.to_json users) |} /\
    users ≡ₚ [alice; root; bob].
Proof.
  split; [reflexivity|].
  apply (user_listing [alice; root; bob] JsUndefined (request_of (PLocal root))).
  reflexivity.
Defined.



End InstancesMore.

(** ** Findings, reports and projects *)

Section Projects.
Import UserStore ProjectStore.

Lemma get_set_count (result : SeverityCounts) (k s : Severity) (n : nat) :
  get_count (set_count result k n) s = if bool_decide (s = k) then n else get_count result s.
Proof. by destruct k, s. Qed.

Lemma fold_counts (cnt : Severity -> nat) (keys : list Severity) (init : SeverityCounts)
    (s : Severity) :
  get_count (fold_left (fun result stat => set_count result stat.1 stat.2)
                       (map (fun k => (k, cnt k)) keys) init) s
  = if bool_decide (s ∈ keys) then cnt s else get_count init s.
Proof.
  revert init. induction keys as [|k keys IH]; intros init; cbn [map fold_left].
  - by rewrite bool_decide_eq_false_2 by apply not_elem_of_nil.
  - rewrite IH, get_set_count. cbn [fst snd].
    destruct (decide (s ∈ keys)) as [Hin|Hin].
    + rewrite !bool_decide_eq_true_2; [done | by right | done].
    + rewrite (bool_decide_eq_false_2 (s ∈ keys)) by done.
      destruct (decide (s = k)) as [->|Hne].
      * rewrite !bool_decide_eq_true_2; [done | by left | done].
      * rewrite !bool_decide_eq_false_2; [done | | done].
        intros Hc. apply elem_of_cons in Hc as [?|?]; done.
Qed.

Lemma filter_none {A} (P : A -> Prop) `{forall x, Decision (P x)} (l : list A) :
  (forall x, x ∈ l -> ~ P x) -> filter P l = [].
Proof.
  induction l as [|x l IH]; intros Hall; [done|].
  rewrite filter_cons_False by (apply Hall; left).
  apply IH. intros y Hy. apply Hall. by right.
Qed.

Lemma stats_count (vs : list Vulnerability.t) (s : Severity) :
  get_count (getVulnerabilityStats vs) s = findings_of vs s.
Proof.
  unfold getVulnerabilityStats, count_by_severity, findings_of.
  rewrite (fold_counts (fun k => length (filter (fun v => Vulnerability.severity v = k) vs))).
  case_bool_decide as Hin; [done|].
  rewrite elem_of_remove_dups in Hin.
  rewrite filter_none; [by destruct s|].
  intros v Hv Hs. apply Hin. rewrite <- Hs. by apply list_elem_of_fmap_2.
Qed.

Lemma findings_partition (vs : list Vulnerability.t) :
  (findings_of vs critical + findings_of vs high + findings_of vs medium
   + findings_of vs low + findings_of vs informational)%nat = length vs.
Proof.
  unfold findings_of. induction vs as [|v vs IH]; [done|].
  rewrite !filter_cons.
  destruct (Vulnerability.severity v); repeat (destruct (decide _); try done);
    cbn [length]; lia.
Qed.

(** X21: [getVulnerabilityStats] reports, for each of the five severities,
    the number of findings of that severity (zero when there is none), and
    the five numbers add up to the number of findings. *)
Theorem severity_counts_exact (vs : list Vulnerability.t) :
  (forall s, get_count (getVulnerabilityStats vs) s = findings_of vs s) /\
  (n_critical (getVulnerabilityStats vs) + n_high (getVulnerabilityStats vs)
   + n_medium (getVulnerabilityStats vs) + n_low (getVulnerabilityStats vs)
   + n_informational (getVulnerabilityStats vs))%nat = length vs.
Proof.
  split; [apply stats_count|].
  rewrite <- (findings_partition vs).
  by rewrite <- !stats_count.
Qed.

(** X22: the dashboard numbers agree with the other readers of the same
    tables: the total of findings is the sum of the five per-severity
    counts, the number of clients is the length of the client listing, and
    the active testers are at most the listed pentesters. *)
Theorem dashboard_consistent (t : Tables) :
  let d := getDashboardStats t in
  let c := getVulnerabilityStats (vulnerabilities t) in
  totalVulnerabilities d
    = (n_critical c + n_high c + n_medium c + n_low c + n_informational c)%nat /\
  totalClients d = length (Storage.getUsersByRole (users t) client) /\
  (activeTesters d <= length (Storage.getUsersByRole (users t) pentester))%nat.
Proof.
  cbn zeta. split; [|split].
  - cbn [getDashboardStats totalVulnerabilities].
    rewrite <- (findings_partition (vulnerabilities t)).
    by rewrite <- !stats_count.
  - done.
  - cbn [getDashboardStats activeTesters]. unfold Storage.getUsersByRole.
    induction (users t) as [|u us IH]; [done|].
    rewrite !filter_cons.
    destruct (decide (User.role u = pentester /\ User.isActive u = Some true)) as [[Hr _]|_].
    + destruct (decide (User.role u = pentester)); [cbn [length]; lia | done].
    + destruct (decide (User.role u = pentester)); cbn [length]; lia.
Qed.

Lemma getReportById_marked (p id : string) (rs : list Report.t) :
  getReportById (markOldReportsAsNotLatest p rs) id = None <-> getReportById rs id = None.
Proof.
  unfold getReportById, markOldReportsAsNotLatest. rewrite !head_None.
  induction rs as [|r rs IH]; [done|]. cbn [map]. rewrite !filter_cons.
  destruct (bool_decide (Report.projectId r = p)); cbn [Report.id];
    destruct (decide (Report.id r = id)); try done.
Qed.

Lemma latest_after_mark (p q : string) (rs : list Report.t) :
  filter (fun r => Report.projectId r = q /\ Report.isLatest r = Some true)
         (markOldReportsAsNotLatest p rs)
  = if bool_decide (q = p) then []
    else filter (fun r => Report.projectId r = q /\ Report.isLatest r = Some true) rs.
Proof.
  unfold markOldReportsAsNotLatest.
  induction rs as [|r rs IH]; [by case_bool_decide|]. cbn [map].
  rewrite !filter_cons, IH.
  destruct (decide (Report.projectId r = p)) as [Hp|Hp].
  - rewrite (bool_decide_eq_true_2 _ Hp). cbn [Report.projectId Report.isLatest].
    destruct (decide (_ /\ Some false = Some true)) as [[_ ?]|_]; [done|].
    case_bool_decide as Hq; [done|].
    destruct (decide (Report.projectId r = q /\ _)) as [[? _]|_]; [congruence | done].
  - rewrite (bool_decide_eq_false_2 _ Hp).
    case_bool_decide as Hq; [|done]. subst q.
    by destruct (decide (Report.projectId r = p /\ _)) as [[? _]|_].
Qed.

(** X23: an upload to an existing project by a stored pentester under a
    fresh id, marked latest as the route marks it, leaves the new report as
    the latest of its project and as the only report of the project marked
    latest, leaves the latest report of every other project as it was, and
    can be fetched by its id. *)
Theorem upload_becomes_latest (now : Z) (uuid : string) (reportData : InsertReport.t)
    (t : Tables) :
  Exists (fun p => Project.id p = InsertReport.projectId reportData) (projects t) ->
  is_Some (Storage.getUser (users t) (InsertReport.pentesterId reportData)) ->
  getReportById (reports t) uuid = None ->
  InsertReport.isLatest reportData = JbBool true ->
  let row := inserted_report now uuid reportData in
  exists t',
    store_upload now uuid reportData t = (t', Ok row) /\
    getLatestReportByProject (reports t') (InsertReport.projectId reportData) = Some row /\
    (forall r, r ∈ reports t' ->
               Report.projectId r = InsertReport.projectId reportData ->
               Report.isLatest r = Some true -> r = row) /\
    (forall q, q <> InsertReport.projectId reportData ->
               getLatestReportByProject (reports t') q
               = getLatestReportByProject (reports t) q) /\
    getReportById (reports t') uuid = Some row.
Proof.
  intros Hproj Huser Hfresh Hlatest row.
  unfold store_upload, createReport. cbn zeta. cbn [users projects reports].
  rewrite (bool_decide_eq_true_2 _ Hproj), (bool_decide_eq_true_2 _ Huser). cbn [negb].
  apply getReportById_marked with (p := InsertReport.projectId reportData) in Hfresh as Hfresh'.
  rewrite Hfresh'. rewrite bool_decide_eq_false_2 by by intros [? ?].
  eexists. split; [done|]. cbn [reports].
  assert (Hrow : Report.projectId row = InsertReport.projectId reportData
                 /\ Report.isLatest row = Some true).
  { subst row. cbn. by rewrite Hlatest. }
  unfold getLatestReportByProject. repeat split.
  - rewrite filter_app, latest_after_mark, bool_decide_eq_true_2 by done.
    by rewrite filter_cons_True.
  - intros r Hin Hp Hl.
    assert (Hf : r ∈ filter (fun r => Report.projectId r = InsertReport.projectId reportData
                                      /\ Report.isLatest r = Some true)
                   (markOldReportsAsNotLatest (InsertReport.projectId reportData) (reports t)
                    ++ [row])) by by apply list_elem_of_filter.
    rewrite filter_app, latest_after_mark, bool_decide_eq_true_2 in Hf by done.
    rewrite filter_cons_True in Hf by done. cbn in Hf.
    by apply list_elem_of_singleton in Hf.
  - intros q Hq. rewrite filter_app, latest_after_mark, bool_decide_eq_false_2 by done.
    rewrite filter_cons_False, filter_nil, app_nil_r; [done|].
    intros [Hp _]. cbn in Hp. by apply Hq.
  - unfold getReportById in *. rewrite filter_app.
    apply head_None in Hfresh'. rewrite Hfresh'. by rewrite filter_cons_True.
Qed.

(** X24: [deleteProject] always clears the assignments, findings and
    reports of the project and leaves those of other projects, the users
    and the totals alone.  It fails exactly when the project exists and a
    totals row still refers to it, and then the project row stays although
    its assignments, findings and reports are already gone; otherwise no
    project with that id remains. *)
Theorem delete_project_not_atomic (projectId : string) (t : Tables) :
  let t' := (deleteProject projectId t).1 in
  let err := (deleteProject projectId t).2 in
  (forall a, a ∈ projectAssignments t' <->
             a ∈ projectAssignments t /\ ProjectAssignment.projectId a <> projectId) /\
  (forall v, v ∈ vulnerabilities t' <->
             v ∈ vulnerabilities t /\ Vulnerability.projectId v <> projectId) /\
  (forall r, r ∈ reports t' <-> r ∈ reports t /\ Report.projectId r <> projectId) /\
  users t' = users t /\
  vulnerabilityTotals t' = vulnerabilityTotals t /\
  (is_Some err <->
     Exists (fun p => Project.id p = projectId) (projects t) /\
     Exists (fun x => VulnerabilityTotals.projectId x = projectId) (vulnerabilityTotals t)) /\
  (is_Some err -> projects t' = projects t) /\
  (err = None ->
     forall p, p ∈ projects t' <-> p ∈ projects t /\ Project.id p <> projectId).
Proof.
  cbn zeta. unfold deleteProject. cbn [fst snd projectAssignments vulnerabilities reports
    users vulnerabilityTotals projects].
  split; [intros a; rewrite list_elem_of_filter; tauto|].
  split; [intros v; rewrite list_elem_of_filter; tauto|].
  split; [intros r; rewrite list_elem_of_filter; tauto|].
  split; [done|]. split; [done|].
  destruct (decide (Exists (fun p => Project.id p = projectId) (projects t))) as [Hp|Hp],
           (decide (Exists (fun x => VulnerabilityTotals.projectId x = projectId)
                           (vulnerabilityTotals t))) as [Hx|Hx].
  - rewrite !bool_decide_eq_true_2 by done. cbn.
    split; [split; [done | by eexists]|]. by split.
  - rewrite bool_decide_eq_true_2, (bool_decide_eq_false_2 _ Hx) by done. cbn.
    split; [split; [by intros [? ?] | by intros [_ ?]]|].
    split; [by intros [? ?]|]. intros _ p. rewrite list_elem_of_filter. tauto.
  - rewrite (bool_decide_eq_false_2 _ Hp). cbn.
    split; [split; [by intros [? ?] | by intros [? _]]|].
    split; [by intros [? ?]|]. intros _ p. rewrite list_elem_of_filter. tauto.
  - rewrite (bool_decide_eq_false_2 _ Hp). cbn.
    split; [split; [by intros [? ?] | by intros [? _]]|].
    split; [by intros [? ?]|]. intros _ p. rewrite list_elem_of_filter. tauto.
Qed.

End Projects.

(** ** Instances on the sample tables *)

Section InstancesProjects.
Import UserStore ProjectStore.

Lemma upload_becomes_latest_witness :
  getLatestReportByProject (reports sample_tables) "p-1" = Some old_report /\
  exists t',
    store_upload 400 "r-2" new_upload sample_tables
      = (t', Ok (inserted_report 400 "r-2" new_upload)) /\
    getLatestReportByProject (reports t') "p-1" = Some (inserted_report 400 "r-2" new_upload).
Proof.
  split; [reflexivity|].
  destruct (upload_becomes_latest 400 "r-2" new_upload sample_tables)
    as (t' & Hok & Hlatest & _).
  - apply Exists_cons_hd. reflexivity.
  - by exists alice.
  - reflexivity.
  - reflexivity.
  - exists t'. split; [exact Hok | exact Hlatest].
Defined.

Lemma delete_project_not_atomic_witness :
  is_Some (deleteProject "p-1" sample_tables_with_totals).2 /\
  projects (deleteProject "p-1" sample_tables_with_totals).1 = [project_one] /\
  reports (deleteProject "p-1" sample_tables_with_totals).1 = [] /\
  (deleteProject "p-1" sample_tables).2 = None /\
  projects (deleteProject "p-1" sample_tables).1 = [].
Proof.
  destruct (delete_project_not_atomic "p-1" sample_tables_with_totals)
    as (_ & _ & _ & _ & _ & Herr & Hstay & _).
  assert (Hblocked : is_Some (deleteProject "p-1" sample_tables_with_totals).2).
  { apply Herr. split; apply Exists_cons_hd; reflexivity. }
  split; [exact Hblocked|]. split; [exact (Hstay Hblocked)|].
  repeat split; reflexivity.
Defined.

End InstancesProjects.

(** ** Sessions and stored users *)

Section SessionsAndUsers.
Context `{Bcrypt}.
Import AuthSession.
Implicit Types (db : list User.t).

(** X25: a federated session does not depend on the stored user.  When no
    row is stored under its subject (never created, or deleted since), an
    unexpired federated principal still comes back whole from the session
    record and is passed on by the gate, GET /api/auth/user answers 404,
    and the admin check of the routes denies it; a local session record of
    such an id, in contrast, fails to deserialize. *)
Theorem federated_session_outlives_user P (now_ms : Z) db (o : OIDCUser.t)
    (c : Claims.t) (e : Z) st :
  OIDCUser.claims o = Some c ->
  OIDCUser.access_token o <> "" ->
  OIDCUser.expires_at o = Some e ->
  0 < now_ms / 1000 <= e ->
  Storage.getUser db (Claims.sub c) = None ->
  roundtrip db (POidc o) = Ok (POidc o) /\
  unifiedIsAuthenticated P now_ms (request_of (POidc o)) st
    = ((Next, request_of (POidc o)), st) /\
  Routes.get_auth_user P now_ms db (request_of (POidc o)) st
    = ({| status := 404; body := message_body "User not found" |}, st) /\
  Routes.not_admin db (request_of (POidc o)) = true /\
  deserializeUser db (SessLocal (Claims.sub c)) = Err "User not found".
Proof.
  intros Hc Hat He [Hpos Hle] Hgone.
  assert (Hshape : has_oidc_shape (POidc o) = true).
  { unfold has_oidc_shape. rewrite Hc, truthy_string_true by done.
    by rewrite bool_decide_eq_true_2. }
  assert (Hgate : unifiedIsAuthenticated P now_ms (request_of (POidc o)) st
                  = ((Next, request_of (POidc o)), st)).
  { unfold unifiedIsAuthenticated, request_of. cbn [isAuthenticated user].
    rewrite Hshape, He. destruct (Z.eqb_spec e 0); [lia|].
    by destruct (Z.leb_spec (now_ms / 1000) e); [|lia]. }
  assert (Hnone : Routes.getUser_opt db (getUserId (Some (POidc o))) = None).
  { unfold Routes.getUser_opt, getUserId. rewrite Hc.
    destruct (truthy_string (Claims.sub c)); [cbn; by rewrite Hgone | done]. }
  split; [|split; [done|split; [|split]]].
  - unfold roundtrip. rewrite serialize_oidc by done. cbn. by destruct o.
  - unfold Routes.get_auth_user, Routes.guarded, bind. rewrite Hgate. cbn [ret].
    unfold Routes.auth_user_handler, request_of. cbn [user].
    rewrite Hc, bool_decide_eq_true_2 by done. by rewrite Hnone.
  - unfold Routes.not_admin, request_of. cbn [user]. by rewrite Hnone.
  - cbn. by rewrite Hgone.
Qed.

(** X26: the create-user handler keeps usernames unique: on a table where
    no two users share a username, no two users share one afterwards,
    whatever the request. *)
Theorem create_user_keeps_usernames_unique (now : Z) (uuid salt : string) db
    (b : Routes.CreateUserBody) (req : Req) :
  usernames_unique db ->
  usernames_unique (Routes.create_user_handler now uuid salt db b req).2.
Proof.
  intros Huniq. unfold Routes.create_user_handler.
  destruct (Routes.not_admin db req); [done|].
  destruct (Routes.cu_username b) as [| |username]; try done.
  destruct (Routes.cu_password b) as [| |password]; try done.
  destruct (Routes.cu_role b) as [| |role]; try done.
  destruct (negb _); [done|].
  destruct (if bool_decide (role = "pentester") then _ else _) as [r|]; [|done].
  destruct (Storage.getUserByUsername db username) eqn:Hfree; [done|].
  unfold Storage.createUserWithPassword.
  destruct (Storage.getUser db uuid); [done|].
  destruct (Storage.email_taken _ _ _); [done|]. cbn [snd].
  assert (Hnone : forall u, u ∈ db -> User.username u <> Some username).
  { unfold Storage.getUserByUsername in Hfree. apply head_None in Hfree.
    intros u Hu Hn. by apply (filter_nil_not_elem_of _ _ u Hfree). }
  intros u v n Hu Hv Hnu Hnv.
  apply elem_of_app in Hu as [Hu|Hu]; apply elem_of_app in Hv as [Hv|Hv].
  - by eapply Huniq.
  - apply list_elem_of_singleton in Hv as ->. cbn in Hnv. injection Hnv as <-.
    by destruct (Hnone u Hu).
  - apply list_elem_of_singleton in Hu as ->. cbn in Hnu. injection Hnu as <-.
    by destruct (Hnone v Hv).
  - apply list_elem_of_singleton in Hu as ->.
    by apply list_elem_of_singleton in Hv as ->.
Qed.

End SessionsAndUsers.

(** ** Instances for the session statements *)

Section InstancesSessions.
Import AuthSession.

Lemma federated_session_outlives_user_witness :
  Storage.getUser [root; alice] (Claims.sub erin_claims) = None /\
  unifiedIsAuthenticated provider_down 1700000000000 (request_of (POidc carol)) idle
    = ((Next, request_of (POidc carol)), idle) /\
  Routes.get_auth_user provider_down 1700000000000 [root; alice] (request_of (POidc carol)) idle
    = ({| status := 404; body := message_body "User not found" |}, idle).
Proof.
  split; [reflexivity|].
  destruct (federated_session_outlives_user provider_down 1700000000000 [root; alice] carol
              erin_claims 1700003600 idle) as (_ & Hgate & Hroute & _);
    try reflexivity; [discriminate | split; [reflexivity | vm_compute; congruence] |].
  split; [exact Hgate | exact Hroute].
Defined.

Lemma sample_usernames_unique : usernames_unique [root; alice].
Proof.
  intros u v n Hu Hv Hnu Hnv.
  apply elem_of_cons in Hu as [->|Hu]; apply elem_of_cons in Hv as [->|Hv];
    try apply list_elem_of_singleton in Hu as ->;
    try apply list_elem_of_singleton in Hv as ->;
    try reflexivity; cbn in Hnu, Hnv; congruence.
Defined.

Lemma create_user_keeps_usernames_unique_witness :
  usernames_unique [root; alice] /\
  usernames_unique
    (Routes.create_user_handler (H := sample_bcrypt) 9000 "u-frank" "salt" [root; alice]
       frank_body (request_of (PLocal root))).2.
Proof.
  split; [exact sample_usernames_unique|].
  apply (create_user_keeps_usernames_unique (H := sample_bcrypt)).
  exact sample_usernames_unique.
Defined.

End InstancesSessions.
